(** * SuperTux [Canvas]: the deferred drawing-request queue

    A shallow embedding of [src/video/canvas.cpp].  The C++ [float] is IEEE
    binary32, taken from the Standard Library's executable [SpecFloat]
    (precision 24, maximal exponent 128); [int] values are [Z]; the request
    queue [m_requests] is a list in submission order; the shared output cell
    of a pixel query lives in a store of colours indexed by address. *)

From Stdlib Require Import ZArith List Bool Lia Permutation Sorted.
From Stdlib Require Import Floats.SpecFloat.
From stdpp Require Import base gmap.

Import ListNotations.
Local Open Scope Z_scope.

(** ** binary32 arithmetic *)

Module F32.

Definition prec : Z := 24.
Definition emax : Z := 128.

Definition float : Type := spec_float.

Definition add : float -> float -> float := SFadd prec emax.
Definition sub : float -> float -> float := SFsub prec emax.
Definition mul : float -> float -> float := SFmul prec emax.
Definition div : float -> float -> float := SFdiv prec emax.

Definition ltb : float -> float -> bool := SFltb.
Definition leb : float -> float -> bool := SFleb.
Definition gtb (a b : float) : bool := SFltb b a.
Definition geb (a b : float) : bool := SFleb b a.

(** [static_cast<float>(n)] for an [int] [n]: round to nearest, ties to
    even. *)
Definition of_int (n : Z) : float := binary_normalize prec emax n 0 false.

Definition zero : float := S754_zero false.
Definition one : float := of_int 1.

(** Modelled from the spec: [floor] of section 4.3, the rounding that
    [Vector::to_int_vec] (declared in math/vector.hpp, which is not
    available) applies to each component of the translation.  A
    finite binary32 value [(-1)^s * m * 2^e] is rounded towards minus
    infinity to an integer, which is representable again; zeros,
    infinities and NaN are left as they are. *)
Definition floor (x : float) : float :=
    match x with
    | S754_finite s m e =>
        let v := cond_Zopp s (Zpos m) in
        let n := if 0 <=? e then Z.shiftl v e else Z.shiftr v (- e) in
        binary_normalize prec emax n 0 s
    | _ => x
    end.

End F32.

Abbreviation float := F32.float.

(** ** Geometry (math/vector.hpp, math/rect.hpp, math/rectf.hpp, math/size.hpp)

    The headers are not available; the members below are
    the ones canvas.cpp uses, with the meaning their use shows. *)

Module Vector.

Record t := make { x : float; y : float }.

(** [operator-] and [operator+], component by component. *)
Definition sub (a b : t) : t := make (F32.sub (x a) (x b)) (F32.sub (y a) (y b)).
Definition add (a b : t) : t := make (F32.add (x a) (x b)) (F32.add (y a) (y b)).

(** Modelled from the spec: [Vector::to_int_vec] is declared in
    math/vector.hpp, which is missing; section 4.3 of the spec reads it as
    the component-wise [floor] of the translation. *)
Definition to_int_vec (v : t) : t := make (F32.floor (x v)) (F32.floor (y v)).

End Vector.

Abbreviation Vector := Vector.t.

Module Size.
Record t := make { width : Z; height : Z }.
End Size.

Module Sizef.
Record t := make { width : float; height : float }.

(** The converting constructor [Sizef(const Size&)]. *)
Definition of_size (s : Size.t) : t :=
    make (F32.of_int (Size.width s)) (F32.of_int (Size.height s)).
End Sizef.

Module Rect.
Record t := make { left : Z; top : Z; right : Z; bottom : Z }.

Definition get_width (r : t) : Z := right r - left r.
Definition get_height (r : t) : Z := bottom r - top r.
End Rect.

Module Rectf.

Record t := make { p1 : Vector; p2 : Vector }.

(** [Rectf(float, float, float, float)] *)
Definition of_coords (l t_ r b : float) : t :=
    make (Vector.make l t_) (Vector.make r b).

(** [Rectf(const Vector&, const Sizef&)]: the second corner is the first
    one moved by the size. *)
Definition of_pos_size (p : Vector) (s : Sizef.t) : t :=
    make p (Vector.make (F32.add (Vector.x p) (Sizef.width s))
                        (F32.add (Vector.y p) (Sizef.height s))).

(** [Rectf(const Rect&)] *)
Definition of_rect (r : Rect.t) : t :=
    of_coords (F32.of_int (Rect.left r)) (F32.of_int (Rect.top r))
              (F32.of_int (Rect.right r)) (F32.of_int (Rect.bottom r)).

Definition get_left (r : t) : float := Vector.x (p1 r).
Definition get_top (r : t) : float := Vector.y (p1 r).
Definition get_right (r : t) : float := Vector.x (p2 r).
Definition get_bottom (r : t) : float := Vector.y (p2 r).

Definition get_width (r : t) : float := F32.sub (Vector.x (p2 r)) (Vector.x (p1 r)).
Definition get_height (r : t) : float := F32.sub (Vector.y (p2 r)) (Vector.y (p1 r)).
Definition get_size (r : t) : Sizef.t := Sizef.make (get_width r) (get_height r).

End Rectf.

Abbreviation Rectf := Rectf.t.

(** ** Paint attributes (video/color.hpp, video/blend.hpp, video/paint_style.hpp) *)

Module Color.

Record t := make { red : float; green : float; blue : float; alpha : float }.

(** Modelled from the spec: the three-argument constructor [Color(r, g, b)];
    video/color.hpp is missing, the spec calls [Color(0, 0, 0)] opaque
    black, that is alpha 1. *)
Definition rgb (r g b : float) : t := make r g b F32.one.

(** [request->color.alpha = a] *)
Definition set_alpha (c : t) (a : float) : t := make (red c) (green c) (blue c) a.

End Color.

Abbreviation Color := Color.t.

(** [Blend] is only default-constructed and copied by canvas.cpp; it is kept
    as the default value or an uninterpreted code. *)
Variant Blend := BlendDefault | BlendCode (code : Z).

(** Modelled from the spec: the gradient direction enum of section 3. *)
Variant GradientDirection := VERTICAL | HORIZONTAL.

Module PaintStyle.
Record t := make { get_color : Color; get_alpha : float; get_blend : Blend }.
End PaintStyle.

(** A raw [Texture*] as returned by [TexturePtr::get()]: null or an address. *)
Definition TexturePtr : Type := option nat.

(** [Flip] is a bit mask held in an [int]. *)
Definition Flip : Type := Z.

Module Surface.
Record t := make {
    get_width : Z;
    get_height : Z;
    get_flip : Flip;
    get_region : Rect.t;
    get_texture : TexturePtr;
    get_displacement_texture : TexturePtr
  }.
End Surface.

(** A [SurfacePtr] is a shared pointer: null ([None]) or a surface. *)
Definition SurfacePtr : Type := option Surface.t.

(** ** The rendering context (video/drawing_context.hpp) *)

Module Transform.
Record t := make { translation : Vector; flip : Flip; alpha : float }.
End Transform.

Module DrawingContext.
Record t := make {
    transform : Transform.t;
    get_cliprect : Rectf;
    get_viewport : Rect.t;
    get_width : Z
  }.
End DrawingContext.

Abbreviation DrawingContext := DrawingContext.t.


(** ** Drawing requests (video/drawing_request.hpp)

    [DrawingRequest] is the base struct: the variant tag and the fields all
    variants share.  The derived structs add the fields below; a request is
    the base fields together with the fields of its variant. *)

Variant RequestType :=
  TEXTURE | GRADIENT | FILLRECT | INVERSEELLIPSE | LINE | TRIANGLE | GETPIXEL.

Module TextureRequest.
Record t := make {
  blend : Blend;
  angle : float;
  color : Color;
  srcrects : list Rectf;
  dstrects : list Rectf;
  texture : TexturePtr;
  displacement_texture : TexturePtr
}.
End TextureRequest.

Module GradientRequest.
Record t := make {
  blend : Blend;
  top : Color;
  bottom : Color;
  direction : GradientDirection;
  region : Rectf
}.
End GradientRequest.

Module FillRectRequest.
Record t := make { pos : Vector; size : Vector; color : Color; radius : float }.
End FillRectRequest.

Module InverseEllipseRequest.
Record t := make { pos : Vector; size : Vector; color : Color }.
End InverseEllipseRequest.

Module LineRequest.
Record t := make { pos : Vector; dest_pos : Vector; color : Color }.
End LineRequest.

Module TriangleRequest.
Record t := make { pos1 : Vector; pos2 : Vector; pos3 : Vector; color : Color }.
End TriangleRequest.

Module GetPixelRequest.
(** [color_ptr] is the shared output cell, by its address in the store. *)
Record t := make { pos : Vector; color_ptr : nat }.
End GetPixelRequest.

Variant RequestData :=
  | Texture (d : TextureRequest.t)
  | Gradient (d : GradientRequest.t)
  | FillRect (d : FillRectRequest.t)
  | InverseEllipse (d : InverseEllipseRequest.t)
  | Line (d : LineRequest.t)
  | Triangle (d : TriangleRequest.t)
  | GetPixel (d : GetPixelRequest.t).

Module DrawingRequest.

Record t := make {
  type : RequestType;
  layer : Z;
  flip : Flip;
  alpha : float;
  data : RequestData
}.

(** The tag of the struct a request was allocated as. *)
Definition data_type (d : RequestData) : RequestType :=
  match d with
  | Texture _ => TEXTURE
  | Gradient _ => GRADIENT
  | FillRect _ => FILLRECT
  | InverseEllipse _ => INVERSEELLIPSE
  | Line _ => LINE
  | Triangle _ => TRIANGLE
  | GetPixel _ => GETPIXEL
  end.

(** The [static_cast] of the dispatch switch is defined exactly when the tag
    names the struct the request was allocated as. *)
Definition well_tagged (r : t) : Prop := type r = data_type (data r).

(** The colour of a request, for the variants that have a single one. *)
Definition color (r : t) : option Color :=
  match data r with
  | Texture d => Some (TextureRequest.color d)
  | Gradient _ => None
  | FillRect d => Some (FillRectRequest.color d)
  | InverseEllipse d => Some (InverseEllipseRequest.color d)
  | Line d => Some (LineRequest.color d)
  | Triangle d => Some (TriangleRequest.color d)
  | GetPixel _ => None
  end.

End DrawingRequest.

Abbreviation DrawingRequest := DrawingRequest.t.

(** ** The painter (video/painter.hpp)

    The painter is an external collaborator; a flush is observed as the
    sequence of calls made on it, each with the request it receives. *)

Module Painter.

Variant call :=
  | draw_texture (request : DrawingRequest)
  | draw_gradient (request : DrawingRequest)
  | draw_filled_rect (request : DrawingRequest)
  | draw_inverse_ellipse (request : DrawingRequest)
  | draw_line (request : DrawingRequest)
  | draw_triangle (request : DrawingRequest)
  | get_pixel (request : DrawingRequest).

Definition request_of (c : call) : DrawingRequest :=
  match c with
  | draw_texture r | draw_gradient r | draw_filled_rect r
  | draw_inverse_ellipse r | draw_line r | draw_triangle r | get_pixel r => r
  end.

(** The variant each painter operation is the entry point for. *)
Definition variant_of (c : call) : RequestType :=
  match c with
  | draw_texture _ => TEXTURE
  | draw_gradient _ => GRADIENT
  | draw_filled_rect _ => FILLRECT
  | draw_inverse_ellipse _ => INVERSEELLIPSE
  | draw_line _ => LINE
  | draw_triangle _ => TRIANGLE
  | get_pixel _ => GETPIXEL
  end.

End Painter.

(** ** std::stable_sort

    The result of a stable sort is fixed by the comparator, so any stable
    sorting function stands for the library call; here elements are put in
    place from the back of the sequence, each one before the first element
    that is not smaller than it. *)

Section StableSort.

Context {A : Type}.
Variable less : A -> A -> bool.

Fixpoint stable_insert (a : A) (l : list A) : list A :=
  match l with
  | [] => [a]
  | b :: l' => if less b a then b :: stable_insert a l' else a :: b :: l'
  end.

Fixpoint stable_sort (l : list A) : list A :=
  match l with
  | [] => []
  | a :: l' => stable_insert a (stable_sort l')
  end.

End StableSort.

(** ** The canvas (video/canvas.hpp, video/canvas.cpp)

    [draw_text] and [draw_center_text] pass the canvas to the font, which
    draws through the operations below; the font is a collaborator and the
    two are left out. *)

(** A failed [assert], or the dereference of a null pointer, ends the
    program; every other call returns. *)
Variant Result (A : Type) :=
  | Ok (a : A)
  | AssertionFailure.

Arguments Ok {A} a.
Arguments AssertionFailure {A}.

(** The [Filter] argument of [Canvas::render]. *)
Variant Filter := BELOW_LIGHTMAP | ABOVE_LIGHTMAP | ALL.

Definition Filter_eqb (f g : Filter) : bool :=
  match f, g with
  | BELOW_LIGHTMAP, BELOW_LIGHTMAP | ABOVE_LIGHTMAP, ABOVE_LIGHTMAP | ALL, ALL => true
  | _, _ => false
  end.

Module Canvas.

(** [m_context] is the state of the drawing context the canvas refers to,
    [m_obst] the number of requests carved from the obstack so far,
    [m_requests] the queue of the frame, in the order of the vector. *)
Record t := make {
  m_context : DrawingContext;
  m_obst : nat;
  m_requests : list DrawingRequest
}.

End Canvas.

Abbreviation Canvas := Canvas.t.

(** The store of the shared [Color] cells that pixel queries write to. *)
Abbreviation ColorStore := (gmap nat Color).

(** [new(m_obst) T()] *)
Definition allocate (c : Canvas) : Canvas :=
  Canvas.make (Canvas.m_context c) (S (Canvas.m_obst c)) (Canvas.m_requests c).

(** [m_requests.push_back(request)] *)
Definition push_back (c : Canvas) (request : DrawingRequest) : Canvas :=
  Canvas.make (Canvas.m_context c) (Canvas.m_obst c) (Canvas.m_requests c ++ [request]).

(** The context is owned by the caller, who changes it between draw calls. *)
Definition set_context (c : Canvas) (context : DrawingContext) : Canvas :=
  Canvas.make context (Canvas.m_obst c) (Canvas.m_requests c).

Definition transform (c : Canvas) : Transform.t :=
  DrawingContext.transform (Canvas.m_context c).

Section CanvasOperations.

(** The layer constants of video/layer.hpp, which is not among the sources. *)
Variables LAYER_LIGHTMAP LAYER_GETPIXEL : Z.

(** The values that the constructors of drawing_request.hpp, also missing,
    give to the members canvas.cpp leaves unassigned. *)
Variable initial_flip : Flip.
Variable initial_alpha : float.
Variable initial_angle : float.
Variable initial_blend : Blend.

Definition clear (c : Canvas) : Canvas :=
  Canvas.make (Canvas.m_context c) (Canvas.m_obst c) [].

(** The [switch] of [Canvas::render]. *)
Definition dispatch (request : DrawingRequest) : Painter.call :=
  match DrawingRequest.type request with
  | TEXTURE => Painter.draw_texture request
  | GRADIENT => Painter.draw_gradient request
  | FILLRECT => Painter.draw_filled_rect request
  | INVERSEELLIPSE => Painter.draw_inverse_ellipse request
  | LINE => Painter.draw_line request
  | TRIANGLE => Painter.draw_triangle request
  | GETPIXEL => Painter.get_pixel request
  end.

(** The loop of [Canvas::render] over the sorted queue. *)
Fixpoint render_loop (filter : Filter) (requests : list DrawingRequest)
  : list Painter.call :=
  match requests with
  | [] => []
  | request :: rest =>
      if Filter_eqb filter BELOW_LIGHTMAP
         && (LAYER_LIGHTMAP <=? DrawingRequest.layer request) then
        render_loop filter rest
      else if Filter_eqb filter ABOVE_LIGHTMAP
              && (DrawingRequest.layer request <=? LAYER_LIGHTMAP) then
        render_loop filter rest
      else
        dispatch request :: render_loop filter rest
  end.

(** The comparator handed to [std::stable_sort]. *)
Definition layer_less (r1 r2 : DrawingRequest) : bool :=
  DrawingRequest.layer r1 <? DrawingRequest.layer r2.

(** [Canvas::render]: the queue is sorted in place, then walked; the result
    is the canvas afterwards and the calls made on the painter, in order. *)
Definition render (c : Canvas) (filter : Filter) : Canvas * list Painter.call :=
  let sorted := stable_sort layer_less (Canvas.m_requests c) in
  (Canvas.make (Canvas.m_context c) (Canvas.m_obst c) sorted,
   render_loop filter sorted).

(** [Canvas::apply_translate] *)
Definition apply_translate (c : Canvas) (pos : Vector) : Vector :=
  let translation := Vector.to_int_vec (Transform.translation (transform c)) in
  Vector.add (Vector.sub pos translation)
    (Vector.make
       (F32.of_int (Rect.left (DrawingContext.get_viewport (Canvas.m_context c))))
       (F32.of_int (Rect.top (DrawingContext.get_viewport (Canvas.m_context c))))).

(** The test of [Canvas::draw_surface] that discards a clipped surface. *)
Definition clipped (cliprect : Rectf) (position : Vector) (surface : Surface.t) : bool :=
  F32.gtb (Vector.x position) (Rectf.get_right cliprect)
  || F32.gtb (Vector.y position) (Rectf.get_bottom cliprect)
  || F32.ltb (F32.add (Vector.x position) (F32.of_int (Surface.get_width surface)))
             (Rectf.get_left cliprect)
  || F32.ltb (F32.add (Vector.y position) (F32.of_int (Surface.get_height surface)))
             (Rectf.get_top cliprect).

(** [Canvas::draw_surface(surface, position, angle, color, blend, layer)] *)
Definition draw_surface (c : Canvas) (surface : SurfacePtr) (position : Vector)
    (angle : float) (color : Color) (blend : Blend) (layer : Z) : Result Canvas :=
  match surface with
  | None => AssertionFailure
  | Some s =>
      let cliprect := DrawingContext.get_cliprect (Canvas.m_context c) in
      if clipped cliprect position s then Ok c
      else
        let request :=
          DrawingRequest.make TEXTURE layer
            (Z.lxor (Transform.flip (transform c)) (Surface.get_flip s))
            (Transform.alpha (transform c))
            (Texture
               (TextureRequest.make blend angle color
                  [Rectf.of_rect (Surface.get_region s)]
                  [Rectf.of_pos_size (apply_translate c position)
                     (Sizef.of_size
                        (Size.make (Surface.get_width s) (Surface.get_height s)))]
                  (Surface.get_texture s)
                  (Surface.get_displacement_texture s))) in
        Ok (push_back (allocate c) request)
  end.

(** [Canvas::draw_surface(surface, position, layer)] *)
Definition draw_surface_at (c : Canvas) (surface : SurfacePtr) (position : Vector)
    (layer : Z) : Result Canvas :=
  draw_surface c surface position F32.zero (Color.rgb F32.one F32.one F32.one)
    BlendDefault layer.

(** [Canvas::draw_surface_part] *)
Definition draw_surface_part (c : Canvas) (surface : SurfacePtr)
    (srcrect dstrect : Rectf) (layer : Z) (style : PaintStyle.t) : Result Canvas :=
  match surface with
  | None => AssertionFailure
  | Some s =>
      let request :=
        DrawingRequest.make TEXTURE layer
          (Z.lxor (Transform.flip (transform c)) (Surface.get_flip s))
          (F32.mul (Transform.alpha (transform c)) (PaintStyle.get_alpha style))
          (Texture
             (TextureRequest.make (PaintStyle.get_blend style) initial_angle
                (PaintStyle.get_color style)
                [srcrect]
                [Rectf.of_pos_size (apply_translate c (Rectf.p1 dstrect))
                   (Rectf.get_size dstrect)]
                (Surface.get_texture s)
                (Surface.get_displacement_texture s))) in
      Ok (push_back (allocate c) request)
  end.

(** [Canvas::draw_surface_scaled]; the surface is dereferenced for its size
    before [draw_surface_part] asserts it. *)
Definition draw_surface_scaled (c : Canvas) (surface : SurfacePtr)
    (dstrect : Rectf) (layer : Z) (style : PaintStyle.t) : Result Canvas :=
  match surface with
  | None => AssertionFailure
  | Some s =>
      draw_surface_part c surface
        (Rectf.of_coords F32.zero F32.zero
           (F32.of_int (Surface.get_width s)) (F32.of_int (Surface.get_height s)))
        dstrect layer style
  end.

(** [Canvas::draw_surface_batch] *)
Definition draw_surface_batch (c : Canvas) (surface : SurfacePtr)
    (srcrects dstrects : list Rectf) (color : Color) (layer : Z) : Result Canvas :=
  match surface with
  | None => AssertionFailure
  | Some s =>
      let request :=
        DrawingRequest.make TEXTURE layer
          (Z.lxor (Transform.flip (transform c)) (Surface.get_flip s))
          (Transform.alpha (transform c))
          (Texture
             (TextureRequest.make initial_blend initial_angle color
                srcrects
                (map (fun dstrect =>
                        Rectf.of_pos_size (apply_translate c (Rectf.p1 dstrect))
                          (Rectf.get_size dstrect))
                     dstrects)
                (Surface.get_texture s)
                (Surface.get_displacement_texture s))) in
      Ok (push_back (allocate c) request)
  end.

(** [Canvas::draw_gradient] *)
Definition draw_gradient (c : Canvas) (top bottom : Color) (layer : Z)
    (direction : GradientDirection) (region : Rectf) (blend : Blend) : Canvas :=
  let request :=
    DrawingRequest.make GRADIENT layer
      (Transform.flip (transform c))
      (Transform.alpha (transform c))
      (Gradient
         (GradientRequest.make blend top bottom direction
            (Rectf.make (apply_translate c (Rectf.p1 region))
                        (apply_translate c (Rectf.p2 region))))) in
  push_back (allocate c) request.

(** [Canvas::draw_filled_rect(topleft, size, color, layer)] *)
Definition draw_filled_rect (c : Canvas) (topleft size : Vector) (color : Color)
    (layer : Z) : Canvas :=
  let request :=
    DrawingRequest.make FILLRECT layer
      (Transform.flip (transform c))
      (Transform.alpha (transform c))
      (FillRect
         (FillRectRequest.make (apply_translate c topleft) size
            (Color.set_alpha color
               (F32.mul (Color.alpha color) (Transform.alpha (transform c))))
            F32.zero)) in
  push_back (allocate c) request.

(** [Canvas::draw_filled_rect(rect, color, radius, layer)] *)
Definition draw_filled_rect_rounded (c : Canvas) (rect : Rectf) (color : Color)
    (radius : float) (layer : Z) : Canvas :=
  let request :=
    DrawingRequest.make FILLRECT layer
      (Transform.flip (transform c))
      (Transform.alpha (transform c))
      (FillRect
         (FillRectRequest.make (apply_translate c (Rectf.p1 rect))
            (Vector.make (Rectf.get_width rect) (Rectf.get_height rect))
            (Color.set_alpha color
               (F32.mul (Color.alpha color) (Transform.alpha (transform c))))
            radius)) in
  push_back (allocate c) request.

(** [Canvas::draw_filled_rect(rect, color, layer)] *)
Definition draw_filled_rect_sharp (c : Canvas) (rect : Rectf) (color : Color)
    (layer : Z) : Canvas :=
  draw_filled_rect_rounded c rect color F32.zero layer.

(** [Canvas::draw_inverse_ellipse] *)
Definition draw_inverse_ellipse (c : Canvas) (pos size : Vector) (color : Color)
    (layer : Z) : Canvas :=
  let request :=
    DrawingRequest.make INVERSEELLIPSE layer
      (Transform.flip (transform c))
      (Transform.alpha (transform c))
      (InverseEllipse
         (InverseEllipseRequest.make (apply_translate c pos) size
            (Color.set_alpha color
               (F32.mul (Color.alpha color) (Transform.alpha (transform c)))))) in
  push_back (allocate c) request.

(** [Canvas::draw_line] *)
Definition draw_line (c : Canvas) (pos1 pos2 : Vector) (color : Color)
    (layer : Z) : Canvas :=
  let request :=
    DrawingRequest.make LINE layer
      (Transform.flip (transform c))
      (Transform.alpha (transform c))
      (Line
         (LineRequest.make (apply_translate c pos1) (apply_translate c pos2)
            (Color.set_alpha color
               (F32.mul (Color.alpha color) (Transform.alpha (transform c)))))) in
  push_back (allocate c) request.

(** [Canvas::draw_triangle] *)
Definition draw_triangle (c : Canvas) (pos1 pos2 pos3 : Vector) (color : Color)
    (layer : Z) : Canvas :=
  let request :=
    DrawingRequest.make TRIANGLE layer
      (Transform.flip (transform c))
      (Transform.alpha (transform c))
      (Triangle
         (TriangleRequest.make (apply_translate c pos1) (apply_translate c pos2)
            (apply_translate c pos3)
            (Color.set_alpha color
               (F32.mul (Color.alpha color) (Transform.alpha (transform c)))))) in
  push_back (allocate c) request.

(** The test of [Canvas::get_pixel] for a position with no light: the
    translated position is compared with the extent of the viewport. *)
Definition offscreen (c : Canvas) (pos : Vector) : bool :=
  let viewport := DrawingContext.get_viewport (Canvas.m_context c) in
  F32.geb (Vector.x pos) (F32.of_int (Rect.get_width viewport))
  || F32.geb (Vector.y pos) (F32.of_int (Rect.get_height viewport))
  || F32.ltb (Vector.x pos) F32.zero
  || F32.ltb (Vector.y pos) F32.zero.

(** [Canvas::get_pixel]; [color_out] is a shared pointer, null ([None]) or
    the address of a cell of the store.  The tag of the request is the one
    the constructor of [GetPixelRequest] sets. *)
Definition get_pixel (c : Canvas) (store : ColorStore) (position : Vector)
    (color_out : option nat) : Result (Canvas * ColorStore) :=
  match color_out with
  | None => AssertionFailure
  | Some cell =>
      let pos := apply_translate c position in
      if offscreen c pos then
        Ok (c, <[cell := Color.rgb (F32.of_int 0) (F32.of_int 0) (F32.of_int 0)]> store)
      else
        let request :=
          DrawingRequest.make GETPIXEL LAYER_GETPIXEL initial_flip initial_alpha
            (GetPixel (GetPixelRequest.make pos cell)) in
        Ok (push_back (allocate c) request, store)
  end.

(** *** Runs of the frame loop

    Between two flushes the caller submits draw calls and changes the
    context ([set_translation], [push_transform], [set_viewport], ...). *)

Variant DrawCall :=
  | DrawSurface (surface : SurfacePtr) (position : Vector) (angle : float)
      (color : Color) (blend : Blend) (layer : Z)
  | DrawSurfaceAt (surface : SurfacePtr) (position : Vector) (layer : Z)
  | DrawSurfaceScaled (surface : SurfacePtr) (dstrect : Rectf) (layer : Z)
      (style : PaintStyle.t)
  | DrawSurfacePart (surface : SurfacePtr) (srcrect dstrect : Rectf) (layer : Z)
      (style : PaintStyle.t)
  | DrawSurfaceBatch (surface : SurfacePtr) (srcrects dstrects : list Rectf)
      (color : Color) (layer : Z)
  | DrawGradient (top bottom : Color) (layer : Z) (direction : GradientDirection)
      (region : Rectf) (blend : Blend)
  | DrawFilledRect (topleft size : Vector) (color : Color) (layer : Z)
  | DrawFilledRectRounded (rect : Rectf) (color : Color) (radius : float) (layer : Z)
  | DrawFilledRectSharp (rect : Rectf) (color : Color) (layer : Z)
  | DrawInverseEllipse (pos size : Vector) (color : Color) (layer : Z)
  | DrawLine (pos1 pos2 : Vector) (color : Color) (layer : Z)
  | DrawTriangle (pos1 pos2 pos3 : Vector) (color : Color) (layer : Z)
  | GetPixelAt (position : Vector) (color_out : option nat).

Variant Event :=
  | Submit (call : DrawCall)
  | ChangeContext (context : DrawingContext).

Definition with_store (store : ColorStore) (r : Result Canvas)
  : Result (Canvas * ColorStore) :=
  match r with
  | Ok c => Ok (c, store)
  | AssertionFailure => AssertionFailure
  end.

Definition submit (c : Canvas) (store : ColorStore) (call : DrawCall)
  : Result (Canvas * ColorStore) :=
  match call with
  | DrawSurface surface position angle color blend layer =>
      with_store store (draw_surface c surface position angle color blend layer)
  | DrawSurfaceAt surface position layer =>
      with_store store (draw_surface_at c surface position layer)
  | DrawSurfaceScaled surface dstrect layer style =>
      with_store store (draw_surface_scaled c surface dstrect layer style)
  | DrawSurfacePart surface srcrect dstrect layer style =>
      with_store store (draw_surface_part c surface srcrect dstrect layer style)
  | DrawSurfaceBatch surface srcrects dstrects color layer =>
      with_store store (draw_surface_batch c surface srcrects dstrects color layer)
  | DrawGradient top bottom layer direction region blend =>
      Ok (draw_gradient c top bottom layer direction region blend, store)
  | DrawFilledRect topleft size color layer =>
      Ok (draw_filled_rect c topleft size color layer, store)
  | DrawFilledRectRounded rect color radius layer =>
      Ok (draw_filled_rect_rounded c rect color radius layer, store)
  | DrawFilledRectSharp rect color layer =>
      Ok (draw_filled_rect_sharp c rect color layer, store)
  | DrawInverseEllipse pos size color layer =>
      Ok (draw_inverse_ellipse c pos size color layer, store)
  | DrawLine pos1 pos2 color layer =>
      Ok (draw_line c pos1 pos2 color layer, store)
  | DrawTriangle pos1 pos2 pos3 color layer =>
      Ok (draw_triangle c pos1 pos2 pos3 color layer, store)
  | GetPixelAt position color_out =>
      get_pixel c store position color_out
  end.

Fixpoint run (events : list Event) (c : Canvas) (store : ColorStore)
  : Result (Canvas * ColorStore) :=
  match events with
  | [] => Ok (c, store)
  | Submit call :: rest =>
      match submit c store call with
      | Ok (c', store') => run rest c' store'
      | AssertionFailure => AssertionFailure
      end
  | ChangeContext context :: rest => run rest (set_context c context) store
  end.

(** What a run submits: every draw call with the context in force when it
    is made. *)
Fixpoint submissions (context : DrawingContext) (events : list Event)
  : list (DrawingContext * DrawCall) :=
  match events with
  | [] => []
  | Submit call :: rest => (context, call) :: submissions context rest
  | ChangeContext context' :: rest => submissions context' rest
  end.

(** *** Vocabulary of the properties *)

(** The requests a flush hands to the painter, in dispatch order. *)
Definition dispatched (c : Canvas) (filter : Filter) : list DrawingRequest :=
  map Painter.request_of (snd (render c filter)).

(** The band a filter lets through. *)
Definition in_band (filter : Filter) (request : DrawingRequest) : Prop :=
  match filter with
  | BELOW_LIGHTMAP => DrawingRequest.layer request < LAYER_LIGHTMAP
  | ABOVE_LIGHTMAP => LAYER_LIGHTMAP < DrawingRequest.layer request
  | ALL => True
  end.

Definition in_bandb (filter : Filter) (request : DrawingRequest) : bool :=
  match filter with
  | BELOW_LIGHTMAP => DrawingRequest.layer request <? LAYER_LIGHTMAP
  | ABOVE_LIGHTMAP => LAYER_LIGHTMAP <? DrawingRequest.layer request
  | ALL => true
  end.

Definition on_layer (layer : Z) (request : DrawingRequest) : bool :=
  DrawingRequest.layer request =? layer.

(** A position lies outside the viewport rectangle when it is beyond one of
    its edges, the right and the bottom edge not belonging to it. *)
Definition outside_viewport (viewport : Rect.t) (pos : Vector) : bool :=
  F32.geb (Vector.x pos) (F32.of_int (Rect.right viewport))
  || F32.geb (Vector.y pos) (F32.of_int (Rect.bottom viewport))
  || F32.ltb (Vector.x pos) (F32.of_int (Rect.left viewport))
  || F32.ltb (Vector.y pos) (F32.of_int (Rect.top viewport)).

(** A box lies fully outside a clip rectangle when it is beyond one of its
    four sides. *)
Definition fully_outside (box cliprect : Rectf) : bool :=
  F32.gtb (Rectf.get_left box) (Rectf.get_right cliprect)
  || F32.gtb (Rectf.get_top box) (Rectf.get_bottom cliprect)
  || F32.ltb (Rectf.get_right box) (Rectf.get_left cliprect)
  || F32.ltb (Rectf.get_bottom box) (Rectf.get_top cliprect).

(** The box a surface covers when it is put at a position. *)
Definition surface_box (position : Vector) (surface : Surface.t) : Rectf :=
  Rectf.of_pos_size position
    (Sizef.of_size (Size.make (Surface.get_width surface) (Surface.get_height surface))).

(** The device-space box of a draw call: the destination rectangle it stores. *)
Definition device_box (c : Canvas) (position : Vector) (surface : Surface.t) : Rectf :=
  surface_box (apply_translate c position) surface.

Definition device_rect (c : Canvas) (dstrect : Rectf) : Rectf :=
  Rectf.of_pos_size (apply_translate c (Rectf.p1 dstrect)) (Rectf.get_size dstrect).

(** The coordinate transform as section 4.3 of the spec writes it. *)
Definition device_pos (context : DrawingContext) (world_pos : Vector) : Vector :=
  let translation := Transform.translation (DrawingContext.transform context) in
  let viewport := DrawingContext.get_viewport context in
  Vector.make
    (F32.add (F32.sub (Vector.x world_pos) (F32.floor (Vector.x translation)))
             (F32.of_int (Rect.left viewport)))
    (F32.add (F32.sub (Vector.y world_pos) (F32.floor (Vector.y translation)))
             (F32.of_int (Rect.top viewport))).

(** The request a call has put at the back of the queue. *)
Definition enqueued (c : Canvas) (request : DrawingRequest) (c' : Canvas) : Prop :=
  c' = push_back (allocate c) request.

(** The positions a request holds: points, the first corner of each
    destination rectangle (a destination rectangle is kept as that corner and
    the corner at the distance of its size), both corners of a region. *)
Definition positions (request : DrawingRequest) : list Vector :=
  match DrawingRequest.data request with
  | Texture d => map Rectf.p1 (TextureRequest.dstrects d)
  | Gradient d => [Rectf.p1 (GradientRequest.region d); Rectf.p2 (GradientRequest.region d)]
  | FillRect d => [FillRectRequest.pos d]
  | InverseEllipse d => [InverseEllipseRequest.pos d]
  | Line d => [LineRequest.pos d; LineRequest.dest_pos d]
  | Triangle d => [TriangleRequest.pos1 d; TriangleRequest.pos2 d; TriangleRequest.pos3 d]
  | GetPixel d => [GetPixelRequest.pos d]
  end.

(** The colours a request holds. *)
Definition colors (request : DrawingRequest) : list Color :=
  match DrawingRequest.data request with
  | Gradient d => [GradientRequest.top d; GradientRequest.bottom d]
  | _ => match DrawingRequest.color request with Some color => [color] | None => [] end
  end.

(** A colour of the caller with the alpha of the transform folded in. *)
Definition folded (c : Canvas) (color : Color) : Color :=
  Color.set_alpha color (F32.mul (Color.alpha color) (Transform.alpha (transform c))).

Definition opaque_black : Color := Color.make F32.zero F32.zero F32.zero F32.one.

(** The queue a sequence of submissions builds, each call seeing only its
    context and the queue before it. *)
Fixpoint replay (queue : list DrawingRequest)
    (calls : list (DrawingContext * DrawCall)) : Result (list DrawingRequest) :=
  match calls with
  | [] => Ok queue
  | (context, call) :: rest =>
      match submit (Canvas.make context 0 queue) ∅ call with
      | Ok (c', _) => replay (Canvas.m_requests c') rest
      | AssertionFailure => AssertionFailure
      end
  end.

(** *** Statements that are put to the test *)

(** A batch whose two sequences differ in length fails an assertion. *)
Definition batch_mismatch_rejected (c : Canvas) (surface : SurfacePtr)
    (srcrects dstrects : list Rectf) (color : Color) (layer : Z) : Prop :=
  length srcrects <> length dstrects ->
  draw_surface_batch c surface srcrects dstrects color layer = AssertionFailure.

(** A surface whose device-space box is fully outside the clip rectangle is
    dropped by [draw_surface]. *)
Definition device_clip_rejection (c : Canvas) (surface : Surface.t)
    (position : Vector) (angle : float) (color : Color) (blend : Blend) (layer : Z)
  : Prop :=
  fully_outside (device_box c position surface)
    (DrawingContext.get_cliprect (Canvas.m_context c)) = true ->
  draw_surface c (Some surface) position angle color blend layer = Ok c.

(** The same for [draw_surface_part]. *)
Definition device_clip_rejection_part (c : Canvas) (surface : Surface.t)
    (srcrect dstrect : Rectf) (layer : Z) (style : PaintStyle.t) : Prop :=
  fully_outside (device_rect c dstrect)
    (DrawingContext.get_cliprect (Canvas.m_context c)) = true ->
  draw_surface_part c (Some surface) srcrect dstrect layer style = Ok c.

(** Every colour of a request carries the alpha of the transform. *)
Definition alpha_folded (c : Canvas) (supplied : list Color)
    (request : DrawingRequest) : Prop :=
  map Color.alpha (colors request)
  = map (fun color => F32.mul (Color.alpha color) (Transform.alpha (transform c)))
      supplied.

(** *** Sample data *)

Definition half : float := F32.div (F32.of_int 1) (F32.of_int 2).

Definition vec (a b : Z) : Vector := Vector.make (F32.of_int a) (F32.of_int b).

Definition white : Color := Color.rgb F32.one F32.one F32.one.

(** A 640x480 screen seen through a half-transparent, unscrolled transform. *)
Definition plain_context : DrawingContext :=
  DrawingContext.make
    (Transform.make (vec 0 0) 0 half)
    (Rectf.of_coords (F32.of_int 0) (F32.of_int 0) (F32.of_int 640) (F32.of_int 480))
    (Rect.make 0 0 640 480)
    640.

(** The same screen scrolled by (100.5, -20.5), the viewport put at (8, 16). *)
Definition scrolled_context : DrawingContext :=
  DrawingContext.make
    (Transform.make
       (Vector.make (F32.add (F32.of_int 100) half) (F32.sub (F32.of_int (-20)) half))
       1 half)
    (Rectf.of_coords (F32.of_int 0) (F32.of_int 0) (F32.of_int 640) (F32.of_int 480))
    (Rect.make 8 16 648 496)
    640.

Definition tile : Surface.t :=
  Surface.make 32 32 0 (Rect.make 0 0 32 32) (Some 7%nat) None.

Definition unit_rect : Rectf :=
  Rectf.of_coords (F32.of_int 0) (F32.of_int 0) (F32.of_int 32) (F32.of_int 32).

Definition plain_style : PaintStyle.t := PaintStyle.make white F32.one BlendDefault.

Definition empty_canvas (context : DrawingContext) : Canvas :=
  Canvas.make context 0 [].

(** A filled rectangle request on a layer, told apart by its flip field. *)
Definition marker (layer : Z) (mark : Z) : DrawingRequest :=
  DrawingRequest.make FILLRECT layer mark F32.one
    (FillRect (FillRectRequest.make (vec 0 0) (vec 1 1) white F32.zero)).

(** A queue submitted out of layer order, with two layers used twice and
    one request on layer 450. *)
Definition layered_canvas : Canvas :=
  Canvas.make plain_context 6
    [marker 10 1; marker 3 2; marker 10 3; marker 3 4; marker 450 5; marker 500 6].

(** A rectangle far to the right of the 640x480 clip rectangle. *)
Definition far_rect : Rectf :=
  Rectf.of_coords (F32.of_int 1000) (F32.of_int 0) (F32.of_int 1032) (F32.of_int 32).

(** A frame that scrolls, draws a line and a pixel query, and then moves
    the camera again; and the same frame with another last move. *)
Definition frame_events (last : DrawingContext) : list Event :=
  [ChangeContext scrolled_context;
   Submit (DrawLine (vec 0 0) (vec 10 10) white 50);
   Submit (GetPixelAt (vec 120 5) (Some 3%nat));
   ChangeContext last].

(** *** Vocabulary of the further properties *)

(** [Canvas::Canvas]: the canvas refers to a context and an obstack and
    starts with an empty queue.  [Canvas::~Canvas] is [clear]. *)
Definition new_canvas (context : DrawingContext) (obst : nat) : Canvas :=
  Canvas.make context obst [].

(** The draw calls of a run, in order. *)
Fixpoint submitted (events : list Event) : list DrawCall :=
  match events with
  | [] => []
  | Submit call :: rest => call :: submitted rest
  | ChangeContext _ :: rest => submitted rest
  end.

(** A draw call that passes a null surface or a null output cell. *)
Definition null_argument (call : DrawCall) : bool :=
  match call with
  | DrawSurface None _ _ _ _ _
  | DrawSurfaceAt None _ _
  | DrawSurfaceScaled None _ _ _
  | DrawSurfacePart None _ _ _ _
  | DrawSurfaceBatch None _ _ _ _
  | GetPixelAt _ None => true
  | _ => false
  end.

(** The output cell a draw call names. *)
Definition output_cell (call : DrawCall) : option nat :=
  match call with
  | GetPixelAt _ color_out => color_out
  | _ => None
  end.

Definition layer_le (r1 r2 : DrawingRequest) : Prop :=
  DrawingRequest.layer r1 <= DrawingRequest.layer r2.

(** The painter operation agrees with the struct the request was allocated
    as, so that the cast made for the call is a cast to the request's own
    type. *)
Definition cast_is_exact (call : Painter.call) : Prop :=
  Painter.variant_of call
  = DrawingRequest.data_type (DrawingRequest.data (Painter.request_of call)).

Definition nan_position : Vector := Vector.make S754_nan S754_nan.

Definition negative_zero : float := S754_zero true.

(** The layer a draw call asks for; a pixel query has no say. *)
Definition call_layer (call : DrawCall) : Z :=
  match call with
  | DrawSurface _ _ _ _ _ layer
  | DrawSurfaceAt _ _ layer
  | DrawSurfaceScaled _ _ layer _
  | DrawSurfacePart _ _ _ layer _
  | DrawSurfaceBatch _ _ _ _ layer
  | DrawGradient _ _ layer _ _ _
  | DrawFilledRect _ _ _ layer
  | DrawFilledRectRounded _ _ _ layer
  | DrawFilledRectSharp _ _ layer
  | DrawInverseEllipse _ _ _ layer
  | DrawLine _ _ _ layer
  | DrawTriangle _ _ _ _ layer => layer
  | GetPixelAt _ _ => LAYER_GETPIXEL
  end.

(** *** Further sample data *)

(** A queue submitted in layer order. *)
Definition ordered_canvas : Canvas :=
  Canvas.make plain_context 3 [marker 3 1; marker 3 2; marker 10 3].

(** The requests of [layered_canvas] submitted in another interleaving of
    the layers. *)
Definition relayered_canvas : Canvas :=
  Canvas.make scrolled_context 9
    [marker 500 6; marker 3 2; marker 450 5; marker 10 1; marker 3 4; marker 10 3].

(** A context with no scrolling and the viewport at the origin. *)
Definition still_context : DrawingContext :=
  DrawingContext.make
    (Transform.make (Vector.make F32.zero F32.zero) 2 F32.one)
    (Rectf.of_coords (F32.of_int 0) (F32.of_int 0) (F32.of_int 640) (F32.of_int 480))
    (Rect.make 0 0 640 480)
    640.

(** A surface that is stored flipped vertically (bit 2). *)
Definition flipped_tile : Surface.t :=
  Surface.make 32 32 2 (Rect.make 0 0 32 32) (Some 7%nat) None.

(** A frame in which one draw call has no surface. *)
Definition faulty_events : list Event :=
  [Submit (DrawLine (vec 0 0) (vec 10 10) white 50);
   Submit (DrawSurfaceScaled None unit_rect 5 plain_style);
   Submit (DrawTriangle (vec 0 0) (vec 10 10) (vec 0 10) white 50)].

(** A frame with a pixel query left of the screen. *)
Definition query_events : list Event :=
  [Submit (GetPixelAt (vec (-1) 0) (Some 3%nat));
   Submit (DrawLine (vec 0 0) (vec 10 10) white 50);
   ChangeContext scrolled_context;
   Submit (DrawSurfaceAt (Some tile) (vec 10 10) 5)].

(** *** Vocabulary of the revised statements *)

(** The destination rectangles a request holds. *)
Definition destinations (request : DrawingRequest) : list Rectf :=
  match DrawingRequest.data request with
  | Texture d => TextureRequest.dstrects d
  | _ => []
  end.

(** A destination rectangle as it is stored: the first corner translated,
    the second corner at the distance of the size from it. *)
Definition stored_rect (context : DrawingContext) (dstrect : Rectf) : Rectf :=
  Rectf.of_pos_size (device_pos context (Rectf.p1 dstrect)) (Rectf.get_size dstrect).

(** A coordinate with the sign of a zero dropped. *)
Definition without_negative_zero (x : float) : float :=
  match x with
  | S754_zero true => S754_zero false
  | _ => x
  end.


(** The second corner of a destination rectangle is stored as its
    transform. *)
Definition second_corner_translated (c : Canvas) (surface : Surface.t)
    (srcrect dstrect : Rectf) (layer : Z) (style : PaintStyle.t) : Prop :=
  forall request : DrawingRequest,
    draw_surface_part c (Some surface) srcrect dstrect layer style
    = Ok (push_back (allocate c) request) ->
    map Rectf.p2 (destinations request)
    = [device_pos (Canvas.m_context c) (Rectf.p2 dstrect)].


Definition fraction (a b : Z) : float := F32.div (F32.of_int a) (F32.of_int b).

(** A rectangle from 4/3 to 11/3 across. *)
Definition thirds_rect : Rectf :=
  Rectf.of_coords (fraction 4 3) (F32.of_int 0) (fraction 11 3) (F32.of_int 32).

(** * Properties *)

(** ** Lists and the stable sort *)

Section SortFacts.

Context {A : Type}.
Variable key : A -> Z.

Let less (a b : A) : bool := key a <? key b.
Let key_le (a b : A) : Prop := key a <= key b.
Let has_key (k : Z) (a : A) : bool := key a =? k.

Lemma filter_comm (p q : A -> bool) (l : list A) :
  List.filter p (List.filter q l) = List.filter q (List.filter p l).
Proof.
  induction l as [|a l IH]; simpl; [reflexivity|].
  destruct (q a) eqn:Hq, (p a) eqn:Hp; simpl; rewrite ?Hq, ?Hp, IH; reflexivity.
Qed.

Lemma filter_perm (p : A -> bool) (l l' : list A) :
  Permutation l l' -> Permutation (List.filter p l) (List.filter p l').
Proof.
  induction 1 as [|a l l' _ IH|a b l|l l' l'' _ IH1 _ IH2]; simpl.
  - constructor.
  - destruct (p a); [constructor|]; exact IH.
  - destruct (p a), (p b); try reflexivity. constructor.
  - etransitivity; eassumption.
Qed.

Lemma filter_strongly_sorted (R : A -> A -> Prop) (p : A -> bool) (l : list A) :
  StronglySorted R l -> StronglySorted R (List.filter p l).
Proof.
  induction 1 as [|a l Hs IH Hall]; simpl; [constructor|].
  destruct (p a); [|exact IH].
  constructor; [exact IH|].
  rewrite List.Forall_forall in *. intros b Hb.
  apply List.filter_In in Hb. apply Hall, Hb.
Qed.

Lemma strongly_sorted_nth (R : A -> A -> Prop) (l : list A) :
  StronglySorted R l ->
  forall (i j : nat) (a b : A),
    nth_error l i = Some a -> nth_error l j = Some b -> (i < j)%nat -> R a b.
Proof.
  induction 1 as [|c l Hs IH Hall]; intros i j a b Hi Hj Hlt.
  - destruct i; discriminate.
  - destruct j as [|j]; [lia|].
    simpl in Hj. destruct i as [|i]; simpl in Hi.
    + injection Hi as <-. rewrite List.Forall_forall in Hall.
      apply Hall. eapply nth_error_In, Hj.
    + apply (IH i j); [assumption|assumption|lia].
Qed.

Lemma stable_insert_perm (a : A) (l : list A) :
  Permutation (stable_insert less a l) (a :: l).
Proof.
  induction l as [|b l IH]; simpl; [reflexivity|].
  destruct (less b a); [|reflexivity].
  rewrite IH. apply perm_swap.
Qed.

Lemma stable_sort_perm (l : list A) : Permutation (stable_sort less l) l.
Proof.
  induction l as [|a l IH]; simpl; [reflexivity|].
  rewrite stable_insert_perm. constructor. exact IH.
Qed.

Lemma stable_insert_sorted (a : A) (l : list A) :
  StronglySorted key_le l -> StronglySorted key_le (stable_insert less a l).
Proof.
  induction 1 as [|b l Hs IH Hall]; simpl.
  - repeat constructor.
  - unfold less at 1. destruct (Z.ltb_spec (key b) (key a)) as [Hlt|Hge].
    + constructor; [exact IH|].
      rewrite List.Forall_forall in *. intros c Hc.
      apply (Permutation_in _ (stable_insert_perm a l)) in Hc.
      destruct Hc as [<-|Hc]; [unfold key_le; lia|apply Hall, Hc].
    + constructor; [constructor; assumption|].
      constructor; [exact Hge|].
      rewrite List.Forall_forall in *. intros c Hc.
      specialize (Hall c Hc). unfold key_le in *. lia.
Qed.

Lemma stable_sort_sorted (l : list A) : StronglySorted key_le (stable_sort less l).
Proof.
  induction l as [|a l IH]; simpl; [constructor|].
  apply stable_insert_sorted, IH.
Qed.

Lemma stable_insert_keeps_order (k : Z) (a : A) (l : list A) :
  List.filter (has_key k) (stable_insert less a l) = List.filter (has_key k) (a :: l).
Proof.
  induction l as [|b l IH]; [reflexivity|].
  cbn [stable_insert]. unfold less at 1.
  destruct (Z.ltb_spec (key b) (key a)) as [Hlt|Hge]; [|reflexivity].
  cbn [List.filter] in *. rewrite IH. unfold has_key.
  destruct (Z.eqb_spec (key b) k), (Z.eqb_spec (key a) k); try reflexivity; lia.
Qed.

Lemma stable_sort_keeps_order (k : Z) (l : list A) :
  List.filter (has_key k) (stable_sort less l) = List.filter (has_key k) l.
Proof.
  induction l as [|a l IH]; [reflexivity|].
  cbn [stable_sort]. rewrite stable_insert_keeps_order.
  cbn [List.filter]. rewrite IH. reflexivity.
Qed.

(** Two sequences in key order with the same elements in the same order on
    every key are the same sequence: the contract of a stable sort leaves
    one result. *)
Lemma sorted_by_key_unique (l1 : list A) :
  StronglySorted key_le l1 ->
  forall l2 : list A,
    StronglySorted key_le l2 ->
    (forall k : Z, List.filter (has_key k) l1 = List.filter (has_key k) l2) ->
    l1 = l2.
Proof.
  assert (Hhead : forall (a b : A) (l l' : list A),
             Forall (key_le a) l ->
             (forall k : Z, List.filter (has_key k) (a :: l)
                            = List.filter (has_key k) (b :: l')) ->
             key a <= key b).
  { intros a b l l' Hall Hf.
    assert (Hkb : has_key (key b) b = true) by apply Z.eqb_refl.
    assert (Hb : In b (a :: l)).
    { apply (List.filter_In (has_key (key b))). rewrite Hf. cbn [List.filter].
      rewrite Hkb. left. reflexivity. }
    destruct Hb as [<-|Hb]; [lia|].
    rewrite List.Forall_forall in Hall. apply Hall, Hb. }
  induction 1 as [|a l1 Hs1 IH Hall1]; intros l2 H2 Hf.
  - destruct l2 as [|b l2]; [reflexivity|].
    assert (Hb : has_key (key b) b = true) by apply Z.eqb_refl.
    specialize (Hf (key b)). cbn [List.filter] in Hf.
    rewrite Hb in Hf. discriminate Hf.
  - destruct l2 as [|b l2].
    + assert (Ha : has_key (key a) a = true) by apply Z.eqb_refl.
      specialize (Hf (key a)). cbn [List.filter] in Hf.
      rewrite Ha in Hf. discriminate Hf.
    + inversion H2 as [|b' l2' Hs2 Hall2]; subst b' l2'.
      assert (Hkey : key a = key b).
      { apply Z.le_antisymm; [apply (Hhead a b l1 l2 Hall1 Hf)|].
        apply (Hhead b a l2 l1 Hall2). intros k. symmetry. apply Hf. }
      assert (Ha : has_key (key a) a = true) by apply Z.eqb_refl.
      assert (Hb : has_key (key a) b = true) by (apply Z.eqb_eq; congruence).
      pose proof (Hf (key a)) as Hk. cbn [List.filter] in Hk.
      rewrite Ha, Hb in Hk. injection Hk as Hab Hrest. subst b. f_equal.
      apply IH; [exact Hs2|]. intros k.
      destruct (Z.eq_dec k (key a)) as [->|Hne]; [exact Hrest|].
      assert (Hk : has_key k a = false) by (apply Z.eqb_neq; congruence).
      specialize (Hf k). cbn [List.filter] in Hf. rewrite Hk in Hf. exact Hf.
Qed.

Lemma stable_sort_unique (l sorted : list A) :
  StronglySorted key_le sorted ->
  (forall k : Z, List.filter (has_key k) sorted = List.filter (has_key k) l) ->
  sorted = stable_sort less l.
Proof.
  intros Hsorted Hstable.
  apply sorted_by_key_unique; [exact Hsorted|apply stable_sort_sorted|].
  intros k. rewrite stable_sort_keeps_order. apply Hstable.
Qed.

End SortFacts.

(** ** The flush *)

Lemma request_of_dispatch (request : DrawingRequest) :
  Painter.request_of (dispatch request) = request.
Proof. unfold dispatch. destruct (DrawingRequest.type request); reflexivity. Qed.

Lemma variant_of_dispatch (request : DrawingRequest) :
  Painter.variant_of (dispatch request) = DrawingRequest.type request.
Proof. unfold dispatch. destruct (DrawingRequest.type request); reflexivity. Qed.

Lemma in_bandb_spec (filter : Filter) (request : DrawingRequest) :
  in_bandb filter request = true <-> in_band filter request.
Proof.
  destruct filter; simpl; [apply Z.ltb_lt|apply Z.ltb_lt|tauto].
Qed.

(** The loop dispatches the requests of the band, one call each, in order. *)
Lemma render_loop_filter (filter : Filter) (requests : list DrawingRequest) :
  render_loop filter requests = map dispatch (List.filter (in_bandb filter) requests).
Proof.
  induction requests as [|request rest IH]; [reflexivity|].
  cbn [render_loop List.filter]. rewrite IH.
  destruct filter; cbn [Filter_eqb andb in_bandb].
  - rewrite Z.leb_antisym. destruct (DrawingRequest.layer request <? LAYER_LIGHTMAP);
      reflexivity.
  - rewrite Z.leb_antisym. destruct (LAYER_LIGHTMAP <? DrawingRequest.layer request);
      reflexivity.
  - reflexivity.
Qed.

Lemma dispatched_filter (c : Canvas) (filter : Filter) :
  dispatched c filter
  = List.filter (in_bandb filter) (stable_sort layer_less (Canvas.m_requests c)).
Proof.
  unfold dispatched, render. cbn [snd]. rewrite render_loop_filter, map_map.
  rewrite (map_ext _ (fun r => r) request_of_dispatch). apply map_id.
Qed.

Lemma dispatched_sorted (c : Canvas) (filter : Filter) :
  StronglySorted (fun r1 r2 => DrawingRequest.layer r1 <= DrawingRequest.layer r2)
    (dispatched c filter).
Proof.
  rewrite dispatched_filter. apply filter_strongly_sorted.
  apply (stable_sort_sorted DrawingRequest.layer).
Qed.

(** C1: a flush hands the requests to the painter by ascending layer, and
    requests on one layer in the order of their submission.  Of two
    dispatched requests the one on the lower layer comes first; for each
    layer, the dispatched requests on it are those of the queue that the
    filter lets through, in queue order; without a band filter the
    dispatched requests are the queue rearranged. *)
Theorem render_layer_order_stable (c : Canvas) (filter : Filter) :
  (forall (i j : nat) (r1 r2 : DrawingRequest),
      nth_error (dispatched c filter) i = Some r1 ->
      nth_error (dispatched c filter) j = Some r2 ->
      DrawingRequest.layer r1 < DrawingRequest.layer r2 ->
      (i < j)%nat)
  /\ (forall layer : Z,
         List.filter (on_layer layer) (dispatched c filter)
         = List.filter (on_layer layer)
             (List.filter (in_bandb filter) (Canvas.m_requests c)))
  /\ Permutation (dispatched c ALL) (Canvas.m_requests c).
Proof.
  split; [|split].
  - intros i j r1 r2 Hi Hj Hlt.
    destruct (Nat.lt_ge_cases i j) as [Hij|Hji]; [exact Hij|exfalso].
    destruct (Nat.eq_dec j i) as [->|Hne].
    + rewrite Hi in Hj. injection Hj as <-. lia.
    + pose proof (strongly_sorted_nth _ _ (dispatched_sorted c filter)
                    j i r2 r1 Hj Hi ltac:(lia)) as Hle.
      simpl in Hle. lia.
  - intros layer. rewrite dispatched_filter.
    rewrite filter_comm, (filter_comm (on_layer layer)). f_equal.
    apply (stable_sort_keeps_order DrawingRequest.layer).
  - rewrite dispatched_filter. cbn [in_bandb].
    rewrite (stable_sort_perm DrawingRequest.layer).
    clear. induction (Canvas.m_requests c) as [|r l IH]; simpl; [constructor|].
    constructor. exact IH.
Qed.

(** C7: with [BELOW_LIGHTMAP] a request of the queue is dispatched exactly
    when its layer is strictly below [LAYER_LIGHTMAP], with [ABOVE_LIGHTMAP]
    exactly when it is strictly above, and always without a band filter; the
    calls are one per request of the band, in sorted order; each call is the
    painter operation of the variant tag of the request it carries. *)
Theorem render_band_filter_dispatch (c : Canvas) (filter : Filter) :
  snd (render c filter)
  = map dispatch
      (List.filter (in_bandb filter) (stable_sort layer_less (Canvas.m_requests c)))
  /\ (forall request : DrawingRequest,
         In request (Canvas.m_requests c) ->
         (In (dispatch request) (snd (render c filter)) <-> in_band filter request))
  /\ (forall call : Painter.call,
         In call (snd (render c filter)) ->
         Painter.variant_of call = DrawingRequest.type (Painter.request_of call)
         /\ call = dispatch (Painter.request_of call)
         /\ In (Painter.request_of call) (Canvas.m_requests c)).
Proof.
  assert (Hcalls : snd (render c filter)
                   = map dispatch
                       (List.filter (in_bandb filter)
                          (stable_sort layer_less (Canvas.m_requests c)))).
  { unfold render. cbn [snd]. apply render_loop_filter. }
  split; [exact Hcalls|]. rewrite Hcalls. split.
  - intros request Hin. rewrite <- in_bandb_spec, List.in_map_iff. split.
    + intros [r [Heq Hr]]. apply (f_equal Painter.request_of) in Heq.
      rewrite !request_of_dispatch in Heq. subst r.
      apply List.filter_In in Hr. apply Hr.
    + intros Hband. exists request. split; [reflexivity|].
      apply List.filter_In. split; [|exact Hband].
      eapply Permutation_in; [|exact Hin].
      symmetry. apply (stable_sort_perm DrawingRequest.layer).
  - intros call Hcall. apply List.in_map_iff in Hcall.
    destruct Hcall as [r [<- Hr]]. rewrite request_of_dispatch.
    split; [apply variant_of_dispatch|]. split; [reflexivity|].
    apply List.filter_In in Hr. destruct Hr as [Hr _].
    eapply Permutation_in; [|exact Hr].
    apply (stable_sort_perm DrawingRequest.layer).
Qed.

(** C10: a request on layer [LAYER_LIGHTMAP] itself is dispatched by
    neither band.  Flushing a queue with [BELOW_LIGHTMAP] and then with
    [ABOVE_LIGHTMAP] makes calls for layers strictly below the reference
    layer in the first pass and strictly above it in the second, hence none
    for a request whose layer equals it. *)
Theorem lightmap_layer_skipped_by_both_bands (c : Canvas) :
  let below := render c BELOW_LIGHTMAP in
  let above := render (fst below) ABOVE_LIGHTMAP in
  Forall (fun call => DrawingRequest.layer (Painter.request_of call) < LAYER_LIGHTMAP)
    (snd below)
  /\ Forall (fun call => LAYER_LIGHTMAP < DrawingRequest.layer (Painter.request_of call))
       (snd above)
  /\ (forall request : DrawingRequest,
         DrawingRequest.layer request = LAYER_LIGHTMAP ->
         ~ In (dispatch request) (snd below ++ snd above)).
Proof.
  intros below above.
  assert (Hbelow : Forall (fun call => DrawingRequest.layer (Painter.request_of call)
                                       < LAYER_LIGHTMAP) (snd below)).
  { unfold below, render. cbn [snd]. rewrite render_loop_filter.
    apply List.Forall_forall. intros call Hcall.
    apply List.in_map_iff in Hcall. destruct Hcall as [r [<- Hr]].
    rewrite request_of_dispatch. apply List.filter_In in Hr.
    apply (in_bandb_spec BELOW_LIGHTMAP), Hr. }
  assert (Habove : Forall (fun call => LAYER_LIGHTMAP
                                       < DrawingRequest.layer (Painter.request_of call))
                     (snd above)).
  { unfold above, render. cbn [snd]. rewrite render_loop_filter.
    apply List.Forall_forall. intros call Hcall.
    apply List.in_map_iff in Hcall. destruct Hcall as [r [<- Hr]].
    rewrite request_of_dispatch. apply List.filter_In in Hr.
    apply (in_bandb_spec ABOVE_LIGHTMAP), Hr. }
  split; [exact Hbelow|]. split; [exact Habove|].
  intros request Hlayer Hin. apply List.in_app_or in Hin.
  rewrite List.Forall_forall in Hbelow, Habove.
  destruct Hin as [Hin|Hin]; [apply Hbelow in Hin|apply Habove in Hin];
    rewrite request_of_dispatch in Hin; lia.
Qed.

Lemma render_requests_unchanged (c : Canvas) (filter : Filter) :
  Forall (fun call => In (Painter.request_of call) (Canvas.m_requests c))
    (snd (render c filter)).
Proof.
  unfold render. cbn [snd]. rewrite render_loop_filter.
  apply List.Forall_forall. intros call Hcall.
  apply List.in_map_iff in Hcall. destruct Hcall as [r [<- Hr]].
  rewrite request_of_dispatch. apply List.filter_In in Hr. destruct Hr as [Hr _].
  eapply Permutation_in; [|exact Hr]. apply (stable_sort_perm DrawingRequest.layer).
Qed.

Lemma render_reads_no_context (c : Canvas) (context : DrawingContext) (filter : Filter) :
  snd (render (set_context c context) filter) = snd (render c filter).
Proof. reflexivity. Qed.

(** ** Submission *)

Lemma apply_translate_device_pos (c : Canvas) (pos : Vector) :
  apply_translate c pos = device_pos (Canvas.m_context c) pos.
Proof. reflexivity. Qed.

Lemma clipped_fully_outside (cliprect : Rectf) (position : Vector) (surface : Surface.t) :
  clipped cliprect position surface = fully_outside (surface_box position surface) cliprect.
Proof. reflexivity. Qed.

(** The test of [get_pixel] measures the translated position against the
    width and height of the viewport; for a viewport whose top left corner
    is the origin, that is the position being outside the viewport
    rectangle. *)
Lemma offscreen_outside_viewport (c : Canvas) (pos : Vector) :
  let viewport := DrawingContext.get_viewport (Canvas.m_context c) in
  Rect.left viewport = 0 -> Rect.top viewport = 0 ->
  offscreen c pos = outside_viewport viewport pos.
Proof.
  intros viewport Hleft Htop. unfold offscreen, outside_viewport.
  fold viewport. unfold Rect.get_width, Rect.get_height.
  rewrite Hleft, Htop, !Z.sub_0_r. reflexivity.
Qed.


(** C9: whatever position and cell the caller passes, a request that
    [get_pixel] enqueues is a [GetPixelRequest] on layer [LAYER_GETPIXEL];
    the call has no layer argument.  A call that returns has either left
    the queue as it was or added exactly that one request. *)
Theorem get_pixel_layer_is_fixed (c : Canvas) (store : ColorStore)
    (position : Vector) (color_out : option nat) (c' : Canvas) (store' : ColorStore) :
  get_pixel c store position color_out = Ok (c', store') ->
  c' = c
  \/ exists request : DrawingRequest,
       c' = push_back (allocate c) request
       /\ DrawingRequest.type request = GETPIXEL
       /\ DrawingRequest.layer request = LAYER_GETPIXEL.
Proof.
  unfold get_pixel. destruct color_out as [cell|]; [|discriminate].
  destruct (offscreen c (apply_translate c position)); intros [= <- <-].
  - left. reflexivity.
  - right. eexists. repeat split; reflexivity.
Qed.

(** C3, as the code has it: [draw_surface_batch] asserts the surface only.
    With a surface every call returns and enqueues one texture request
    that keeps all source rectangles as given and all destination
    rectangles, translated, whatever the two lengths are; without one it
    fails the assertion. *)
Theorem draw_surface_batch_keeps_both_sequences (c : Canvas) (surface : Surface.t)
    (srcrects dstrects : list Rectf) (color : Color) (layer : Z) :
  draw_surface_batch c None srcrects dstrects color layer = AssertionFailure
  /\ exists (request : DrawingRequest) (d : TextureRequest.t),
       draw_surface_batch c (Some surface) srcrects dstrects color layer
       = Ok (push_back (allocate c) request)
       /\ DrawingRequest.data request = Texture d
       /\ TextureRequest.srcrects d = srcrects
       /\ TextureRequest.dstrects d = map (device_rect c) dstrects
       /\ length (TextureRequest.srcrects d) = length srcrects
       /\ length (TextureRequest.dstrects d) = length dstrects.
Proof.
  split; [reflexivity|]. unfold draw_surface_batch.
  eexists. eexists. split; [reflexivity|]. cbn.
  split; [reflexivity|]. split; [reflexivity|]. split; [reflexivity|].
  split; [reflexivity|]. apply length_map.
Qed.

(** C4, as the code has it: [draw_surface], in both overloads, returns
    without allocating and without enqueueing when the box of the surface
    at the position the caller passes (before the coordinate transform) is
    fully outside the clip rectangle of the context. *)
Theorem draw_surface_clip_rejection (c : Canvas) (surface : Surface.t)
    (position : Vector) (angle : float) (color : Color) (blend : Blend) (layer : Z) :
  fully_outside (surface_box position surface)
    (DrawingContext.get_cliprect (Canvas.m_context c)) = true ->
  draw_surface c (Some surface) position angle color blend layer = Ok c
  /\ draw_surface_at c (Some surface) position layer = Ok c.
Proof.
  intros Hout. unfold draw_surface_at, draw_surface.
  rewrite clipped_fully_outside, Hout. split; reflexivity.
Qed.

(** C5, as the code has it: the requests of [draw_filled_rect] (three
    overloads), [draw_inverse_ellipse], [draw_line] and [draw_triangle]
    hold the caller's colour with its alpha multiplied by the alpha of the
    transform at submission.  Gradient and texture requests hold the
    caller's colours as given; the alpha of the transform is in the alpha
    field of the request, multiplied by the alpha of the style in
    [draw_surface_part] and [draw_surface_scaled].  A flush hands the
    requests of the queue to the painter as they are. *)
Theorem color_alpha_at_submission (c : Canvas) :
  let alpha := Transform.alpha (transform c) in
  (forall topleft size color layer,
      exists request,
        draw_filled_rect c topleft size color layer = push_back (allocate c) request
        /\ colors request = [folded c color])
  /\ (forall rect color radius layer,
         exists request,
           draw_filled_rect_rounded c rect color radius layer
           = push_back (allocate c) request
           /\ colors request = [folded c color])
  /\ (forall rect color layer,
         exists request,
           draw_filled_rect_sharp c rect color layer = push_back (allocate c) request
           /\ colors request = [folded c color])
  /\ (forall pos size color layer,
         exists request,
           draw_inverse_ellipse c pos size color layer = push_back (allocate c) request
           /\ colors request = [folded c color])
  /\ (forall pos1 pos2 color layer,
         exists request,
           draw_line c pos1 pos2 color layer = push_back (allocate c) request
           /\ colors request = [folded c color])
  /\ (forall pos1 pos2 pos3 color layer,
         exists request,
           draw_triangle c pos1 pos2 pos3 color layer = push_back (allocate c) request
           /\ colors request = [folded c color])
  /\ (forall top bottom layer direction region blend,
         exists request,
           draw_gradient c top bottom layer direction region blend
           = push_back (allocate c) request
           /\ colors request = [top; bottom]
           /\ DrawingRequest.alpha request = alpha)
  /\ (forall surface position angle color blend layer,
         draw_surface c (Some surface) position angle color blend layer = Ok c
         \/ exists request,
              draw_surface c (Some surface) position angle color blend layer
              = Ok (push_back (allocate c) request)
              /\ colors request = [color]
              /\ DrawingRequest.alpha request = alpha)
  /\ (forall surface srcrect dstrect layer style,
         exists request,
           draw_surface_part c (Some surface) srcrect dstrect layer style
           = Ok (push_back (allocate c) request)
           /\ colors request = [PaintStyle.get_color style]
           /\ DrawingRequest.alpha request = F32.mul alpha (PaintStyle.get_alpha style))
  /\ (forall surface dstrect layer style,
         exists request,
           draw_surface_scaled c (Some surface) dstrect layer style
           = Ok (push_back (allocate c) request)
           /\ colors request = [PaintStyle.get_color style]
           /\ DrawingRequest.alpha request = F32.mul alpha (PaintStyle.get_alpha style))
  /\ (forall surface srcrects dstrects color layer,
         exists request,
           draw_surface_batch c (Some surface) srcrects dstrects color layer
           = Ok (push_back (allocate c) request)
           /\ colors request = [color]
           /\ DrawingRequest.alpha request = alpha)
  /\ (forall filter,
         Forall (fun call => In (Painter.request_of call) (Canvas.m_requests c))
           (snd (render c filter))).
Proof.
  intros alpha.
  repeat match goal with |- _ /\ _ => split end;
    try (intros; eexists; repeat split; reflexivity).
  - intros surface position angle color blend layer. unfold draw_surface.
    destruct (clipped _ position surface); [left; reflexivity|].
    right. eexists. repeat split; reflexivity.
  - intros filter. apply render_requests_unchanged.
Qed.

(** C6, as the code has it: [apply_translate] is the transform of
    section 4.3, [(world_pos - floor(translation)) + viewport.top_left] in
    binary32 arithmetic, for every position and every translation, negative
    components included.  Every draw call that enqueues stores the
    transform of each point it is given and of both corners of a gradient
    region; [draw_surface] enqueues when the surface is not clipped,
    [get_pixel] when the position is not offscreen, the others always.  A
    destination rectangle is stored as the transform of its first corner
    and, for the second corner, that point moved by the size of the
    rectangle.  A flush hands the requests over as they are. *)
Theorem positions_baked_at_submission (c : Canvas) :
  let context := Canvas.m_context c in
  let device := device_pos context in
  (forall pos, apply_translate c pos = device pos)
  /\ (forall surface position angle color blend layer,
         clipped (DrawingContext.get_cliprect context) position surface = false ->
         exists request,
           draw_surface c (Some surface) position angle color blend layer
           = Ok (push_back (allocate c) request)
           /\ positions request = [device position]
           /\ destinations request = [surface_box (device position) surface])
  /\ (forall surface position layer,
         clipped (DrawingContext.get_cliprect context) position surface = false ->
         exists request,
           draw_surface_at c (Some surface) position layer
           = Ok (push_back (allocate c) request)
           /\ positions request = [device position]
           /\ destinations request = [surface_box (device position) surface])
  /\ (forall surface srcrect dstrect layer style,
         exists request,
           draw_surface_part c (Some surface) srcrect dstrect layer style
           = Ok (push_back (allocate c) request)
           /\ positions request = [device (Rectf.p1 dstrect)]
           /\ destinations request = [stored_rect context dstrect])
  /\ (forall surface dstrect layer style,
         exists request,
           draw_surface_scaled c (Some surface) dstrect layer style
           = Ok (push_back (allocate c) request)
           /\ positions request = [device (Rectf.p1 dstrect)]
           /\ destinations request = [stored_rect context dstrect])
  /\ (forall surface srcrects dstrects color layer,
         exists request,
           draw_surface_batch c (Some surface) srcrects dstrects color layer
           = Ok (push_back (allocate c) request)
           /\ positions request = map device (map Rectf.p1 dstrects)
           /\ destinations request = map (stored_rect context) dstrects)
  /\ (forall top bottom layer direction region blend,
         exists request,
           draw_gradient c top bottom layer direction region blend
           = push_back (allocate c) request
           /\ positions request = [device (Rectf.p1 region); device (Rectf.p2 region)])
  /\ (forall topleft size color layer,
         exists request,
           draw_filled_rect c topleft size color layer = push_back (allocate c) request
           /\ positions request = [device topleft])
  /\ (forall rect color radius layer,
         exists request,
           draw_filled_rect_rounded c rect color radius layer
           = push_back (allocate c) request
           /\ positions request = [device (Rectf.p1 rect)])
  /\ (forall rect color layer,
         exists request,
           draw_filled_rect_sharp c rect color layer = push_back (allocate c) request
           /\ positions request = [device (Rectf.p1 rect)])
  /\ (forall pos size color layer,
         exists request,
           draw_inverse_ellipse c pos size color layer = push_back (allocate c) request
           /\ positions request = [device pos])
  /\ (forall pos1 pos2 color layer,
         exists request,
           draw_line c pos1 pos2 color layer = push_back (allocate c) request
           /\ positions request = [device pos1; device pos2])
  /\ (forall pos1 pos2 pos3 color layer,
         exists request,
           draw_triangle c pos1 pos2 pos3 color layer = push_back (allocate c) request
           /\ positions request = [device pos1; device pos2; device pos3])
  /\ (forall store position cell,
         offscreen c (device position) = false ->
         exists request,
           get_pixel c store position (Some cell)
           = Ok (push_back (allocate c) request, store)
           /\ positions request = [device position])
  /\ (forall filter,
         Forall (fun call => In (Painter.request_of call) (Canvas.m_requests c))
           (snd (render c filter))).
Proof.
  intros context device.
  repeat match goal with |- _ /\ _ => split end;
    try (intros; eexists; split; [reflexivity|split; reflexivity]);
    try (intros; eexists; split; reflexivity);
    try (intros pos; reflexivity).
  - intros surface position angle color blend layer Hkept. unfold draw_surface.
    fold context. rewrite Hkept. eexists. split; [reflexivity|]. split; reflexivity.
  - intros surface position layer Hkept. unfold draw_surface_at, draw_surface.
    fold context. rewrite Hkept. eexists. split; [reflexivity|]. split; reflexivity.
  - intros surface srcrects dstrects color layer. eexists. split; [reflexivity|].
    unfold positions, destinations. cbn. rewrite !map_map. split; reflexivity.
  - intros store position cell Hon. unfold get_pixel.
    rewrite apply_translate_device_pos. fold context. fold device. rewrite Hon.
    eexists. split; reflexivity.
  - intros filter. apply render_requests_unchanged.
Qed.

(** ** Two runs *)

Lemma submit_sees_context_and_queue (c : Canvas) (store : ColorStore) (call : DrawCall) :
  match submit c store call,
        submit (Canvas.make (Canvas.m_context c) 0 (Canvas.m_requests c)) ∅ call with
  | Ok (c1, _), Ok (c2, _) =>
      Canvas.m_context c1 = Canvas.m_context c
      /\ Canvas.m_requests c1 = Canvas.m_requests c2
  | AssertionFailure, AssertionFailure => True
  | _, _ => False
  end.
Proof.
  destruct call; cbn [submit];
    try (split; reflexivity);
    try (destruct surface as [s|]; cbn; [|exact I]).
  - destruct (clipped _ position s); split; reflexivity.
  - destruct (clipped _ position s); split; reflexivity.
  - split; reflexivity.
  - split; reflexivity.
  - split; reflexivity.
  - destruct color_out as [cell|]; cbn; [|exact I].
    change (offscreen (Canvas.make (Canvas.m_context c) 0 (Canvas.m_requests c)))
      with (offscreen c).
    change (apply_translate (Canvas.make (Canvas.m_context c) 0 (Canvas.m_requests c)))
      with (apply_translate c).
    destruct (offscreen c (apply_translate c position)); split; reflexivity.
Qed.

Lemma run_replay (events : list Event) :
  forall (c : Canvas) (store : ColorStore),
    match run events c store,
          replay (Canvas.m_requests c) (submissions (Canvas.m_context c) events) with
    | Ok (c', _), Ok queue => Canvas.m_requests c' = queue
    | AssertionFailure, AssertionFailure => True
    | _, _ => False
    end.
Proof.
  induction events as [|[call|context] rest IH]; intros c store.
  - reflexivity.
  - cbn [run submissions replay].
    pose proof (submit_sees_context_and_queue c store call) as Hsub.
    destruct (submit c store call) as [[c1 store1]|],
             (submit _ ∅ call) as [[c2 store2]|]; try contradiction; [|exact I].
    destruct Hsub as [Hctx Hq]. specialize (IH c1 store1).
    rewrite Hctx, Hq in IH. exact IH.
  - cbn [run submissions]. apply (IH (set_context c context) store).
Qed.

(** C8: what a flush hands to the painter is fixed by the requests as they
    were built at submission.  The calls do not change when the context is
    replaced before the flush; each call carries a request of the queue;
    and two runs that start from equal queues and make the same draw calls,
    each under the same context, whatever changes of the context happen in
    between or afterwards, both fail or both reach queues for which every
    flush makes the same calls. *)
Theorem render_two_run (events1 events2 : list Event) (c1 c2 : Canvas)
    (store1 store2 : ColorStore) :
  Canvas.m_requests c1 = Canvas.m_requests c2 ->
  submissions (Canvas.m_context c1) events1 = submissions (Canvas.m_context c2) events2 ->
  (forall (context : DrawingContext) (filter : Filter),
      snd (render (set_context c1 context) filter) = snd (render c1 filter)
      /\ Forall (fun call => In (Painter.request_of call) (Canvas.m_requests c1))
           (snd (render c1 filter)))
  /\ match run events1 c1 store1, run events2 c2 store2 with
     | Ok (c1', _), Ok (c2', _) =>
         forall (context1 context2 : DrawingContext) (filter : Filter),
           snd (render (set_context c1' context1) filter)
           = snd (render (set_context c2' context2) filter)
     | AssertionFailure, AssertionFailure => True
     | _, _ => False
     end.
Proof.
  intros Hqueue Hsubs. split.
  - intros context filter. split; [reflexivity|apply render_requests_unchanged].
  - pose proof (run_replay events1 c1 store1) as H1.
    pose proof (run_replay events2 c2 store2) as H2.
    rewrite Hqueue, Hsubs in H1.
    destruct (run events1 c1 store1) as [[c1' s1']|],
             (run events2 c2 store2) as [[c2' s2']|],
             (replay _ _) as [queue|]; try contradiction; try exact I.
    intros context1 context2 filter. unfold render, set_context. cbn.
    rewrite H1, H2. reflexivity.
Qed.

(** * Further properties *)

(** ** More on sequences in key order *)

Section MoreSortFacts.

Context {A : Type}.
Variable key : A -> Z.

Let less (a b : A) : bool := key a <? key b.
Let key_le (a b : A) : Prop := key a <= key b.
Let has_key (k : Z) (a : A) : bool := key a =? k.

Lemma stable_sort_of_sorted (l : list A) :
  StronglySorted key_le l -> stable_sort less l = l.
Proof.
  intros Hsorted. symmetry.
  apply (stable_sort_unique key); [exact Hsorted|]. intros k. reflexivity.
Qed.

Lemma stable_sort_idempotent (l : list A) :
  stable_sort less (stable_sort less l) = stable_sort less l.
Proof. apply stable_sort_of_sorted, (stable_sort_sorted key). Qed.

Lemma stable_sort_same_per_key (l1 l2 : list A) :
  (forall k : Z, List.filter (has_key k) l1 = List.filter (has_key k) l2) ->
  stable_sort less l1 = stable_sort less l2.
Proof.
  intros Hsame.
  apply (sorted_by_key_unique key);
    [apply (stable_sort_sorted key)|apply (stable_sort_sorted key)|].
  intros k. rewrite !(stable_sort_keeps_order key). apply Hsame.
Qed.

Lemma filter_none (p : A -> bool) (l : list A) :
  Forall (fun a => p a = false) l -> List.filter p l = [].
Proof.
  induction 1 as [|a l Ha _ IH]; simpl; [reflexivity|]. rewrite Ha. exact IH.
Qed.

(** A sequence in key order is its part below a key, then its part on the
    key, then its part above. *)
Lemma sorted_three_bands (k : Z) (l : list A) :
  StronglySorted key_le l ->
  l = List.filter (fun a => key a <? k) l
      ++ List.filter (has_key k) l
      ++ List.filter (fun a => k <? key a) l.
Proof.
  induction 1 as [|a l Hs IH Hall]; [reflexivity|].
  cbn [List.filter]. unfold has_key at 1.
  destruct (Z.ltb_spec (key a) k) as [Hlt|Hge].
  - destruct (Z.eqb_spec (key a) k) as [Heq|_]; [lia|].
    destruct (Z.ltb_spec k (key a)) as [Hgt|_]; [lia|].
    cbn [app]. f_equal. exact IH.
  - assert (Hbelow : List.filter (fun b => key b <? k) l = []).
    { apply filter_none. eapply List.Forall_impl; [|exact Hall].
      intros b Hb. apply Z.ltb_ge. unfold key_le in Hb. lia. }
    rewrite Hbelow in *. cbn [app] in *.
    destruct (Z.eqb_spec (key a) k) as [Heq|Hne].
    + destruct (Z.ltb_spec k (key a)) as [Hgt|_]; [lia|].
      cbn [app]. f_equal. exact IH.
    + assert (Hon : List.filter (has_key k) l = []).
      { apply filter_none. eapply List.Forall_impl; [|exact Hall].
        intros b Hb. apply Z.eqb_neq. unfold key_le in Hb. lia. }
      rewrite Hon in *. cbn [app] in *.
      destruct (Z.ltb_spec k (key a)) as [_|Hle]; [|lia].
      f_equal. exact IH.
Qed.

End MoreSortFacts.

(** ** More on the flush *)

Lemma render_queue (c : Canvas) (filter : Filter) :
  Canvas.m_requests (fst (render c filter))
  = stable_sort layer_less (Canvas.m_requests c).
Proof. reflexivity. Qed.

(** X1: a flush keeps the queue whole.  Whatever the filter, the queue
    after it holds the requests that were queued, each as often as before,
    in layer order and in queue order on every layer; context and obstack
    are not touched.  Requests the filter skips stay queued. *)
Theorem render_keeps_the_queue (c : Canvas) (filter : Filter) :
  let c' := fst (render c filter) in
  Permutation (Canvas.m_requests c') (Canvas.m_requests c)
  /\ StronglySorted layer_le (Canvas.m_requests c')
  /\ (forall layer : Z,
         List.filter (on_layer layer) (Canvas.m_requests c')
         = List.filter (on_layer layer) (Canvas.m_requests c))
  /\ length (Canvas.m_requests c') = length (Canvas.m_requests c)
  /\ Canvas.m_context c' = Canvas.m_context c
  /\ Canvas.m_obst c' = Canvas.m_obst c.
Proof.
  intros c'. unfold c'. rewrite render_queue.
  pose proof (stable_sort_perm DrawingRequest.layer (Canvas.m_requests c)) as Hperm.
  split; [exact Hperm|]. split; [apply (stable_sort_sorted DrawingRequest.layer)|].
  split; [intros layer; apply (stable_sort_keeps_order DrawingRequest.layer)|].
  split; [apply Permutation_length, Hperm|]. split; reflexivity.
Qed.

(** X2: a flush does not disturb the next one.  After a flush with any
    filter, a second flush with any filter makes the calls it would have
    made on the untouched queue, and leaves the queue as the first flush
    left it. *)
Theorem render_twice (c : Canvas) (first second : Filter) :
  let c' := fst (render c first) in
  snd (render c' second) = snd (render c second)
  /\ fst (render c' second) = c'.
Proof.
  intros c'. unfold c', render. cbn [fst snd Canvas.m_requests Canvas.m_context
                                       Canvas.m_obst].
  rewrite (stable_sort_idempotent DrawingRequest.layer). split; reflexivity.
Qed.

(** X3: the two bands and the reference layer make up the full flush: the
    calls of a flush without band filter are the calls of the flush below
    the lightmap, then one call for each request on [LAYER_LIGHTMAP], then
    the calls of the flush above the lightmap. *)
Theorem render_all_is_below_lightmap_above (c : Canvas) :
  snd (render c ALL)
  = snd (render c BELOW_LIGHTMAP)
    ++ map dispatch
         (List.filter (on_layer LAYER_LIGHTMAP)
            (stable_sort layer_less (Canvas.m_requests c)))
    ++ snd (render c ABOVE_LIGHTMAP).
Proof.
  unfold render. cbn [snd]. rewrite !render_loop_filter, <- !map_app. f_equal.
  cbn [in_bandb].
  rewrite (sorted_three_bands DrawingRequest.layer LAYER_LIGHTMAP
             (stable_sort layer_less (Canvas.m_requests c))) at 1.
  - clear. induction (_ ++ _) as [|r l IH]; [reflexivity|].
    cbn [List.filter]. f_equal. exact IH.
  - apply (stable_sort_sorted DrawingRequest.layer).
Qed.

(** X4: when the requests were submitted in ascending layer order, a flush
    leaves the queue as it is and dispatches in submission order. *)
Theorem render_of_ordered_queue (c : Canvas) (filter : Filter) :
  StronglySorted layer_le (Canvas.m_requests c) ->
  fst (render c filter) = c
  /\ dispatched c filter = List.filter (in_bandb filter) (Canvas.m_requests c)
  /\ dispatched c ALL = Canvas.m_requests c.
Proof.
  intros Hsorted.
  pose proof (stable_sort_of_sorted DrawingRequest.layer _ Hsorted) as Hid.
  split; [|split].
  - unfold render. cbn [fst]. fold layer_less in Hid. rewrite Hid.
    destruct c; reflexivity.
  - rewrite dispatched_filter. fold layer_less in Hid. rewrite Hid. reflexivity.
  - rewrite dispatched_filter. fold layer_less in Hid. rewrite Hid. cbn [in_bandb].
    clear. induction (Canvas.m_requests c) as [|r l IH]; [reflexivity|].
    cbn [List.filter]. f_equal. exact IH.
Qed.

(** X5: only the order within a layer matters.  Two queues that hold the
    same requests in the same order on every layer are flushed by the same
    calls, however the layers were interleaved at submission and whatever
    the context or the obstack of the two canvases. *)
Theorem render_same_per_layer (c1 c2 : Canvas) (filter : Filter) :
  (forall layer : Z,
      List.filter (on_layer layer) (Canvas.m_requests c1)
      = List.filter (on_layer layer) (Canvas.m_requests c2)) ->
  snd (render c1 filter) = snd (render c2 filter).
Proof.
  intros Hsame. unfold render. cbn [snd]. f_equal.
  apply (stable_sort_same_per_key DrawingRequest.layer). exact Hsame.
Qed.

(** ** More on submission *)

(** What a draw call can do: fail, exactly when it passes a null surface or
    a null output cell; return with the canvas as it was, the store either
    untouched or with opaque black in the output cell; or return with one
    well-tagged request more and the store untouched. *)
Lemma submit_outcome (c : Canvas) (store : ColorStore) (call : DrawCall) :
  match submit c store call with
  | AssertionFailure => null_argument call = true
  | Ok (c', store') =>
      null_argument call = false
      /\ Canvas.m_context c' = Canvas.m_context c
      /\ ((c' = c
           /\ (store' = store
               \/ exists cell : nat,
                    output_cell call = Some cell
                    /\ store' = <[cell := opaque_black]> store))
          \/ (store' = store
              /\ exists request : DrawingRequest,
                   c' = push_back (allocate c) request
                   /\ DrawingRequest.well_tagged request))
  end.
Proof.
  assert (Hnew : forall request : DrawingRequest,
             DrawingRequest.well_tagged request ->
             null_argument call = false ->
             null_argument call = false
             /\ Canvas.m_context (push_back (allocate c) request) = Canvas.m_context c
             /\ ((push_back (allocate c) request = c
                  /\ (store = store
                      \/ exists cell : nat,
                           output_cell call = Some cell
                           /\ store = <[cell := opaque_black]> store))
                 \/ (store = store
                     /\ exists request' : DrawingRequest,
                          push_back (allocate c) request
                          = push_back (allocate c) request'
                          /\ DrawingRequest.well_tagged request'))).
  { intros request Htag Hnull. split; [exact Hnull|]. split; [reflexivity|].
    right. split; [reflexivity|]. exists request. split; [reflexivity|exact Htag]. }
  destruct call; cbn [submit];
    try (apply Hnew; reflexivity);
    try (destruct surface as [s|]; cbn; [|reflexivity]).
  - destruct (clipped _ position s).
    + split; [reflexivity|]. split; [reflexivity|]. left. split; [reflexivity|].
      left. reflexivity.
    + apply Hnew; reflexivity.
  - destruct (clipped _ position s).
    + split; [reflexivity|]. split; [reflexivity|]. left. split; [reflexivity|].
      left. reflexivity.
    + apply Hnew; reflexivity.
  - apply Hnew; reflexivity.
  - apply Hnew; reflexivity.
  - apply Hnew; reflexivity.
  - unfold get_pixel. destruct color_out as [cell|]; [|reflexivity].
    destruct (offscreen c (apply_translate c position)).
    + split; [reflexivity|]. split; [reflexivity|]. left. split; [reflexivity|].
      right. exists cell. split; reflexivity.
    + apply Hnew; reflexivity.
Qed.

Lemma forall_push_back (P : DrawingRequest -> Prop) (c : Canvas)
    (request : DrawingRequest) :
  Forall P (Canvas.m_requests c) -> P request ->
  Forall P (Canvas.m_requests (push_back (allocate c) request)).
Proof.
  intros Hall Hrequest. cbn. apply Forall_app. split; [exact Hall|].
  constructor; [exact Hrequest|constructor].
Qed.

(** X6: submission only appends, and every allocation is queued.  A run
    that returns has left the requests queued before it in place and put
    its own behind them, at most one for each draw call, and the obstack
    has grown by exactly the number of requests added. *)
Theorem run_appends_what_it_allocates (events : list Event) :
  forall (c : Canvas) (store : ColorStore) (c' : Canvas) (store' : ColorStore),
    run events c store = Ok (c', store') ->
    exists added : list DrawingRequest,
      Canvas.m_requests c' = Canvas.m_requests c ++ added
      /\ Canvas.m_obst c' = (Canvas.m_obst c + length added)%nat
      /\ (length added <= length (submitted events))%nat.
Proof.
  induction events as [|[call|context] rest IH]; intros c store c' store' Hrun.
  - injection Hrun as <- <-. exists []. cbn. rewrite app_nil_r.
    split; [reflexivity|]. split; lia.
  - cbn [run submitted] in *.
    pose proof (submit_outcome c store call) as Hsub.
    destruct (submit c store call) as [[c1 store1]|]; [|discriminate].
    destruct Hsub as [_ [_ Hsub]].
    destruct (IH c1 store1 c' store' Hrun) as [added [Hq [Ho Hlen]]].
    destruct Hsub as [[-> _]|[_ [request [-> _]]]].
    + exists added. split; [exact Hq|]. split; [exact Ho|]. cbn [length]. lia.
    + exists (request :: added). cbn in Hq, Ho. rewrite <- app_assoc in Hq.
      split; [exact Hq|]. split; cbn [length]; lia.
  - cbn [run submitted] in *.
    apply (IH (set_context c context) store c' store' Hrun).
Qed.

(** X7: the casts of the dispatch switch are exact.  If every queued
    request carries the tag of the struct it was allocated as, the same
    holds after a run that returns, and every call of a flush that follows
    is the painter operation for the struct its request really is. *)
Theorem run_keeps_requests_well_tagged (events : list Event) :
  forall (c : Canvas) (store : ColorStore) (c' : Canvas) (store' : ColorStore),
    Forall DrawingRequest.well_tagged (Canvas.m_requests c) ->
    run events c store = Ok (c', store') ->
    Forall DrawingRequest.well_tagged (Canvas.m_requests c')
    /\ (forall filter : Filter, Forall cast_is_exact (snd (render c' filter))).
Proof.
  assert (Hqueue : forall (c : Canvas) (store : ColorStore) (c' : Canvas)
                          (store' : ColorStore),
             Forall DrawingRequest.well_tagged (Canvas.m_requests c) ->
             run events c store = Ok (c', store') ->
             Forall DrawingRequest.well_tagged (Canvas.m_requests c')).
  { induction events as [|[call|context] rest IH]; intros c store c' store' Hinv Hrun.
    - injection Hrun as <- <-. exact Hinv.
    - cbn [run] in Hrun.
      pose proof (submit_outcome c store call) as Hsub.
      destruct (submit c store call) as [[c1 store1]|]; [|discriminate].
      destruct Hsub as [_ [_ Hsub]].
      apply (IH c1 store1 c' store'); [|exact Hrun].
      destruct Hsub as [[-> _]|[_ [request [-> Htag]]]]; [exact Hinv|].
      apply forall_push_back; assumption.
    - cbn [run] in Hrun. apply (IH (set_context c context) store c' store'); assumption. }
  intros c store c' store' Hinv Hrun.
  pose proof (Hqueue c store c' store' Hinv Hrun) as Hall.
  split; [exact Hall|]. intros filter.
  rewrite List.Forall_forall in Hall. apply List.Forall_forall. intros call Hcall.
  pose proof (render_requests_unchanged c' filter) as Hin.
  rewrite List.Forall_forall in Hin. specialize (Hin call Hcall).
  unfold render in Hcall. cbn [snd] in Hcall. rewrite render_loop_filter in Hcall.
  apply List.in_map_iff in Hcall. destruct Hcall as [r [<- _]].
  unfold cast_is_exact. rewrite variant_of_dispatch, request_of_dispatch.
  rewrite request_of_dispatch in Hin. apply (Hall r Hin).
Qed.

(** X8: with assertions compiled in, so that a failed [assert] ends the
    program, a frame of calls to the draw_surface family, [draw_gradient],
    [draw_filled_rect], [draw_inverse_ellipse], [draw_line],
    [draw_triangle] and [get_pixel] aborts exactly when one of the calls
    passes a null surface or a null output cell.  A clipped surface, an
    offscreen query, sequences of any length or any coordinates do not make
    one of these calls fail.  [draw_text] and [draw_center_text], which use
    the font without a check, are not among the calls of a frame here. *)
Theorem run_fails_on_null_only (events : list Event) :
  forall (c : Canvas) (store : ColorStore),
    run events c store = AssertionFailure
    <-> existsb null_argument (submitted events) = true.
Proof.
  induction events as [|[call|context] rest IH]; intros c store.
  - cbn. split; discriminate.
  - cbn [run submitted existsb].
    pose proof (submit_outcome c store call) as Hsub.
    destruct (submit c store call) as [[c1 store1]|].
    + destruct Hsub as [-> _]. cbn [orb]. apply IH.
    + rewrite Hsub. cbn [orb]. split; reflexivity.
  - cbn [run submitted]. apply IH.
Qed.

(** X9: the only thing submission writes to the shared cells is opaque
    black, and only to a cell that was passed to [get_pixel]: after a run
    that returns every cell holds what it held before, or it was named as
    output cell by a draw call of the run and holds opaque black. *)
Theorem run_writes_black_to_output_cells_only (events : list Event) :
  forall (c : Canvas) (store : ColorStore) (c' : Canvas) (store' : ColorStore),
    run events c store = Ok (c', store') ->
    forall cell : nat,
      store' !! cell = store !! cell
      \/ (store' !! cell = Some opaque_black
          /\ In (Some cell) (map output_cell (submitted events))).
Proof.
  induction events as [|[call|context] rest IH]; intros c store c' store' Hrun cell.
  - injection Hrun as <- <-. left. reflexivity.
  - cbn [run submitted map] in *.
    pose proof (submit_outcome c store call) as Hsub.
    destruct (submit c store call) as [[c1 store1]|]; [|discriminate].
    destruct Hsub as [_ [_ Hsub]].
    destruct (IH c1 store1 c' store' Hrun cell) as [Hsame|[Hblack Hin]].
    + assert (Hstore : store1 = store
                       \/ exists cell' : nat,
                            output_cell call = Some cell'
                            /\ store1 = <[cell' := opaque_black]> store).
      { destruct Hsub as [[_ Hs]|[Hs _]]; [exact Hs|left; exact Hs]. }
      destruct Hstore as [->|[cell' [Hout ->]]]; [left; exact Hsame|].
      rewrite Hsame. destruct (Nat.eq_dec cell' cell) as [->|Hne].
      * right. rewrite lookup_insert_eq. split; [reflexivity|].
        left. exact Hout.
      * left. apply lookup_insert_ne. exact Hne.
    + right. split; [exact Hblack|]. right. exact Hin.
  - cbn [run submitted] in *. apply (IH (set_context c context) store c' store' Hrun).
Qed.

(** X10: [clear] starts the frame over.  After it the queue is empty and a
    flush makes no call; the context and the obstack are as before;
    clearing again changes nothing; and the draw calls that follow build
    the queue they build on a new canvas under the same context. *)
Theorem clear_starts_over (c : Canvas) (events : list Event)
    (store1 store2 : ColorStore) (filter : Filter) :
  Canvas.m_requests (clear c) = []
  /\ snd (render (clear c) filter) = []
  /\ Canvas.m_context (clear c) = Canvas.m_context c
  /\ Canvas.m_obst (clear c) = Canvas.m_obst c
  /\ clear (clear c) = clear c
  /\ match run events (clear c) store1,
           run events (new_canvas (Canvas.m_context c) 0) store2 with
     | Ok (c1, _), Ok (c2, _) => Canvas.m_requests c1 = Canvas.m_requests c2
     | AssertionFailure, AssertionFailure => True
     | _, _ => False
     end.
Proof.
  repeat split.
  pose proof (run_replay events (clear c) store1) as H1.
  pose proof (run_replay events (new_canvas (Canvas.m_context c) 0) store2) as H2.
  cbn [clear new_canvas Canvas.m_requests Canvas.m_context] in H1, H2.
  destruct (run events (clear c) store1) as [[c1 s1]|],
           (run events (new_canvas (Canvas.m_context c) 0) store2) as [[c2 s2]|],
           (replay _ _) as [queue|]; try contradiction; try exact I.
  congruence.
Qed.

(** Two canvases under the same context answer a draw call alike: both
    fail, both leave their queue as it is, or both append the same request,
    which is on the layer the call asks for. *)
Lemma submit_same_context (c d : Canvas) (store_c store_d : ColorStore)
    (call : DrawCall) :
  Canvas.m_context c = Canvas.m_context d ->
  match submit c store_c call, submit d store_d call with
  | Ok (c', _), Ok (d', _) =>
      (Canvas.m_requests c' = Canvas.m_requests c
       /\ Canvas.m_requests d' = Canvas.m_requests d)
      \/ exists request : DrawingRequest,
           Canvas.m_requests c' = Canvas.m_requests c ++ [request]
           /\ Canvas.m_requests d' = Canvas.m_requests d ++ [request]
           /\ DrawingRequest.layer request = call_layer call
  | AssertionFailure, AssertionFailure => True
  | _, _ => False
  end.
Proof.
  destruct c as [context obst_c queue_c], d as [context' obst_d queue_d].
  cbn [Canvas.m_context]. intros <-.
  destruct call; cbn [submit];
    try (right; eexists; repeat split; reflexivity);
    try (destruct surface as [s|]; cbn; [|exact I]).
  - destruct (clipped _ position s); [left; split; reflexivity|].
    right. eexists. repeat split; reflexivity.
  - destruct (clipped _ position s); [left; split; reflexivity|].
    right. eexists. repeat split; reflexivity.
  - right. eexists. repeat split; reflexivity.
  - right. eexists. repeat split; reflexivity.
  - right. eexists. repeat split; reflexivity.
  - unfold get_pixel. destruct color_out as [cell|]; [|exact I].
    change (offscreen (Canvas.make context obst_d queue_d))
      with (offscreen (Canvas.make context obst_c queue_c)).
    change (apply_translate (Canvas.make context obst_d queue_d))
      with (apply_translate (Canvas.make context obst_c queue_c)).
    destruct (offscreen _ _); [left; split; reflexivity|].
    right. eexists. repeat split; reflexivity.
Qed.

(** X11: draw calls on different layers commute.  Made in either order on
    the same canvas, two draw calls that ask for different layers lead to
    the same calls at every flush; and if one order aborts, so does the
    other. *)
Theorem draw_calls_on_different_layers_commute (c : Canvas) (store : ColorStore)
    (a b : DrawCall) :
  call_layer a <> call_layer b ->
  match run [Submit a; Submit b] c store, run [Submit b; Submit a] c store with
  | Ok (c1, _), Ok (c2, _) =>
      forall filter : Filter, snd (render c1 filter) = snd (render c2 filter)
  | AssertionFailure, AssertionFailure => True
  | _, _ => False
  end.
Proof.
  intros Hlayers. cbn [run].
  pose proof (submit_outcome c store a) as Ha.
  pose proof (submit_outcome c store b) as Hb.
  destruct (submit c store a) as [[ca sa]|] eqn:Ea;
    destruct (submit c store b) as [[cb sb]|] eqn:Eb.
  - destruct Ha as [_ [Hca _]], Hb as [_ [Hcb _]].
    pose proof (submit_same_context c ca store sa b (eq_sym Hca)) as Hb2.
    pose proof (submit_same_context c cb store sb a (eq_sym Hcb)) as Ha2.
    rewrite Eb in Hb2. rewrite Ea in Ha2.
    destruct (submit ca sa b) as [[cab sab]|]; [|contradiction].
    destruct (submit cb sb a) as [[cba sba]|]; [|contradiction].
    intros filter. unfold render. cbn [snd]. f_equal.
    apply (stable_sort_same_per_key DrawingRequest.layer). intros k.
    destruct Ha2 as [[Hqa Hqba]|[ra [Hqa [Hqba Hla]]]];
      destruct Hb2 as [[Hqb Hqab]|[rb [Hqb [Hqab Hlb]]]];
      rewrite Hqab, Hqba, ?Hqa, ?Hqb; try reflexivity.
    rewrite !List.filter_app. cbn [List.filter]. rewrite <- !app_assoc. f_equal.
    destruct (Z.eqb_spec (DrawingRequest.layer ra) k),
             (Z.eqb_spec (DrawingRequest.layer rb) k); try reflexivity.
    congruence.
  - pose proof (submit_same_context c ca store sa b
                  (eq_sym (proj1 (proj2 Ha)))) as Hb2.
    rewrite Eb in Hb2.
    destruct (submit ca sa b) as [[cab sab]|]; [contradiction|exact I].
  - pose proof (submit_same_context c cb store sb a
                  (eq_sym (proj1 (proj2 Hb)))) as Ha2.
    rewrite Ea in Ha2.
    destruct (submit cb sb a) as [[cba sba]|]; [contradiction|exact I].
  - exact I.
Qed.

(** ** More on what a request holds *)

(** X12: the flip of a texture request is the flip of the context combined
    with the flip of the surface by exclusive or, in [draw_surface_part],
    [draw_surface_batch] and (when it enqueues) [draw_surface]; it is zero
    exactly when the two flips are the same, so that a flipped surface
    drawn in an equally flipped context comes out unflipped. *)
Theorem texture_flip_is_exclusive_or (c : Canvas) (surface : Surface.t) :
  let flip := Z.lxor (Transform.flip (transform c)) (Surface.get_flip surface) in
  (flip = 0 <-> Transform.flip (transform c) = Surface.get_flip surface)
  /\ (forall srcrect dstrect layer style,
         exists request,
           draw_surface_part c (Some surface) srcrect dstrect layer style
           = Ok (push_back (allocate c) request)
           /\ DrawingRequest.flip request = flip)
  /\ (forall srcrects dstrects color layer,
         exists request,
           draw_surface_batch c (Some surface) srcrects dstrects color layer
           = Ok (push_back (allocate c) request)
           /\ DrawingRequest.flip request = flip)
  /\ (forall position angle color blend layer,
         draw_surface c (Some surface) position angle color blend layer = Ok c
         \/ exists request,
              draw_surface c (Some surface) position angle color blend layer
              = Ok (push_back (allocate c) request)
              /\ DrawingRequest.flip request = flip).
Proof.
  intros flip. split; [|split; [|split]].
  - unfold flip. split; [apply Z.lxor_eq|]. intros ->. apply Z.lxor_nilpotent.
  - intros. eexists. split; reflexivity.
  - intros. eexists. split; reflexivity.
  - intros position angle color blend layer. unfold draw_surface.
    destruct (clipped _ position surface); [left; reflexivity|].
    right. eexists. split; reflexivity.
Qed.

Lemma compare_with_nan (x : float) : SFcompare x S754_nan = None.
Proof. destruct x; reflexivity. Qed.

Lemma apply_translate_nan (c : Canvas) : apply_translate c nan_position = nan_position.
Proof. reflexivity. Qed.

(** X13: a position that is not a number is never rejected.  Every
    comparison with it is false, so [get_pixel] does not take it for
    offscreen and [draw_surface] does not take the surface for clipped:
    both enqueue a request, whose position is again not a number. *)
Theorem nan_position_is_enqueued (c : Canvas) :
  (forall (store : ColorStore) (cell : nat),
      exists request,
        get_pixel c store nan_position (Some cell)
        = Ok (push_back (allocate c) request, store)
        /\ positions request = [nan_position])
  /\ (forall (surface : Surface.t) angle color blend layer,
         exists request,
           draw_surface c (Some surface) nan_position angle color blend layer
           = Ok (push_back (allocate c) request)
           /\ positions request = [nan_position]).
Proof.
  split.
  - intros store cell. unfold get_pixel. rewrite apply_translate_nan.
    assert (Hon : offscreen c nan_position = false).
    { unfold offscreen, F32.geb, F32.ltb, SFleb, SFltb. cbn [nan_position Vector.x Vector.y].
      rewrite !compare_with_nan. reflexivity. }
    rewrite Hon. eexists. split; reflexivity.
  - intros surface angle color blend layer. unfold draw_surface.
    assert (Hkept : clipped (DrawingContext.get_cliprect (Canvas.m_context c))
                      nan_position surface = false).
    { unfold clipped, F32.gtb, F32.ltb, SFltb. cbn [nan_position Vector.x Vector.y].
      rewrite !compare_with_nan. reflexivity. }
    rewrite Hkept. eexists. split; reflexivity.
Qed.

Lemma add_sub_zero (x : float) :
  x <> negative_zero ->
  F32.add (F32.sub x (F32.floor F32.zero)) (F32.of_int 0) = x.
Proof.
  intros Hx. destruct x as [[|]| | |]; try reflexivity. contradiction.
Qed.

Lemma add_sub_zero_any (x : float) :
  F32.add (F32.sub x (F32.floor F32.zero)) (F32.of_int 0) = without_negative_zero x.
Proof. destruct x as [[|]| | |]; reflexivity. Qed.

(** X14: with no scrolling and the viewport at the origin the transform
    changes nothing: a position is stored as it is passed, but for a
    coordinate that is negative zero, which becomes positive zero; this
    holds coordinate by coordinate. *)
Theorem apply_translate_unscrolled (c : Canvas) (pos : Vector) :
  Transform.translation (transform c) = Vector.make F32.zero F32.zero ->
  Rect.left (DrawingContext.get_viewport (Canvas.m_context c)) = 0 ->
  Rect.top (DrawingContext.get_viewport (Canvas.m_context c)) = 0 ->
  (Vector.x pos <> negative_zero -> Vector.y pos <> negative_zero ->
   apply_translate c pos = pos)
  /\ apply_translate c (Vector.make negative_zero negative_zero)
     = Vector.make F32.zero F32.zero
  /\ apply_translate c pos
     = Vector.make (without_negative_zero (Vector.x pos))
                   (without_negative_zero (Vector.y pos)).
Proof.
  intros Htranslation Hleft Htop. unfold apply_translate.
  rewrite Htranslation, Hleft, Htop. split; [|split].
  - intros Hx Hy. destruct pos as [x y]. cbn [Vector.x Vector.y] in Hx, Hy.
    unfold Vector.add, Vector.sub, Vector.to_int_vec. cbn [Vector.x Vector.y].
    rewrite (add_sub_zero x Hx), (add_sub_zero y Hy). reflexivity.
  - reflexivity.
  - destruct pos as [x y].
    unfold Vector.add, Vector.sub, Vector.to_int_vec. cbn [Vector.x Vector.y].
    rewrite (add_sub_zero_any x), (add_sub_zero_any y). reflexivity.
Qed.

(** X15: the overloads of [draw_filled_rect] agree.  Given a rectangle,
    the overload taking a rectangle builds the canvas that the overload
    taking a corner and a size builds from the first corner of the
    rectangle and its width and height, and the overload with a radius
    builds it too when the radius is zero. *)
Theorem draw_filled_rect_overloads_agree (c : Canvas) (rect : Rectf) (color : Color)
    (layer : Z) :
  draw_filled_rect_sharp c rect color layer
  = draw_filled_rect c (Rectf.p1 rect)
      (Vector.make (Rectf.get_width rect) (Rectf.get_height rect)) color layer
  /\ draw_filled_rect_rounded c rect color F32.zero layer
     = draw_filled_rect_sharp c rect color layer.
Proof. split; reflexivity. Qed.

(** ** From submission to the painter *)

Lemma dispatched_by (c : Canvas) (filter : Filter) (request : DrawingRequest) :
  In (dispatch request) (snd (render c filter))
  <-> In request (Canvas.m_requests c) /\ in_bandb filter request = true.
Proof.
  unfold render. cbn [snd]. rewrite render_loop_filter, List.in_map_iff. split.
  - intros [r [Heq Hr]]. apply (f_equal Painter.request_of) in Heq.
    rewrite !request_of_dispatch in Heq. subst r.
    apply List.filter_In in Hr. destruct Hr as [Hr Hband]. split; [|exact Hband].
    eapply Permutation_in; [|exact Hr]. apply (stable_sort_perm DrawingRequest.layer).
  - intros [Hin Hband]. exists request. split; [reflexivity|].
    apply List.filter_In. split; [|exact Hband].
    eapply Permutation_in; [|exact Hin].
    symmetry. apply (stable_sort_perm DrawingRequest.layer).
Qed.

(** X16: when a pixel query is answered.  A query that is not offscreen is
    handed to [Painter::get_pixel] by a flush without band filter; the two
    band flushes, below and then above the lightmap, hand it over exactly
    when [LAYER_GETPIXEL] differs from [LAYER_LIGHTMAP], and never if the
    two layers are the same. *)
Theorem pixel_query_reaches_the_painter (c : Canvas) (store : ColorStore)
    (position : Vector) (cell : nat) :
  offscreen c (apply_translate c position) = false ->
  exists request : DrawingRequest,
    get_pixel c store position (Some cell) = Ok (push_back (allocate c) request, store)
    /\ In (Painter.get_pixel request)
         (snd (render (push_back (allocate c) request) ALL))
    /\ (let below := render (push_back (allocate c) request) BELOW_LIGHTMAP in
        let above := render (fst below) ABOVE_LIGHTMAP in
        In (Painter.get_pixel request) (snd below ++ snd above)
        <-> LAYER_GETPIXEL <> LAYER_LIGHTMAP).
Proof.
  intros Hon. unfold get_pixel. rewrite Hon. eexists. split; [reflexivity|].
  match goal with
  | |- In (Painter.get_pixel ?r) _ /\ _ =>
      set (request := r);
      change (Painter.get_pixel request) with (dispatch request)
  end.
  assert (Hin : In request (Canvas.m_requests (push_back (allocate c) request))).
  { cbn. apply List.in_or_app. right. left. reflexivity. }
  split.
  - apply dispatched_by. split; [exact Hin|reflexivity].
  - cbv zeta. rewrite List.in_app_iff.
    rewrite !dispatched_by. cbn [in_bandb]. rewrite render_queue.
    change (DrawingRequest.layer request) with LAYER_GETPIXEL.
    rewrite !Z.ltb_lt. split.
    + intros [[_ Hlt]|[_ Hgt]]; lia.
    + intros Hne. destruct (Z.lt_ge_cases LAYER_GETPIXEL LAYER_LIGHTMAP) as [Hlt|Hge].
      * left. split; [exact Hin|exact Hlt].
      * right. split; [|lia].
        eapply Permutation_in; [|exact Hin].
        symmetry. apply (stable_sort_perm DrawingRequest.layer).
Qed.

(** X17: [draw_surface] drops a surface exactly when its box at the
    position passed is fully outside the clip rectangle; in every other
    case it enqueues one texture request with the region of the surface as
    the only source rectangle, one destination rectangle, and the texture
    handles of the surface. *)
Theorem draw_surface_drops_or_enqueues (c : Canvas) (surface : Surface.t)
    (position : Vector) (angle : float) (color : Color) (blend : Blend) (layer : Z) :
  let outside :=
    fully_outside (surface_box position surface)
      (DrawingContext.get_cliprect (Canvas.m_context c)) in
  (draw_surface c (Some surface) position angle color blend layer = Ok c
   <-> outside = true)
  /\ (outside = false ->
      exists (request : DrawingRequest) (d : TextureRequest.t),
        draw_surface c (Some surface) position angle color blend layer
        = Ok (push_back (allocate c) request)
        /\ DrawingRequest.data request = Texture d
        /\ DrawingRequest.layer request = layer
        /\ TextureRequest.srcrects d = [Rectf.of_rect (Surface.get_region surface)]
        /\ length (TextureRequest.dstrects d) = 1%nat
        /\ TextureRequest.texture d = Surface.get_texture surface
        /\ TextureRequest.displacement_texture d
           = Surface.get_displacement_texture surface).
Proof.
  intros outside. unfold outside, draw_surface. rewrite <- clipped_fully_outside.
  destruct (clipped _ position surface); split.
  - split; reflexivity.
  - discriminate.
  - split; [|discriminate]. intros Heq. injection Heq as Heq.
    apply (f_equal Canvas.m_obst) in Heq. cbn in Heq. lia.
  - intros _. eexists. eexists. repeat split; reflexivity.
Qed.

End CanvasOperations.

(** * The properties at sample inputs

    The layer constants are given sample values here: 450 for
    [LAYER_LIGHTMAP], 600 for [LAYER_GETPIXEL]. *)

Example floor_of_minus_one_half : F32.floor (F32.sub F32.zero half) = F32.of_int (-1).
Proof. reflexivity. Qed.

Example floor_of_three_halves : F32.floor (F32.add F32.one half) = F32.of_int 1.
Proof. reflexivity. Qed.

(** Scrolled by (100.5, -20.5), that is by (100, -21) after rounding, and
    moved to the viewport at (8, 16): (1, 1) becomes (-91, 38). *)
Example apply_translate_scrolled :
  apply_translate (empty_canvas scrolled_context) (vec 1 1) = vec (-91) 38.
Proof. reflexivity. Qed.

Example flush_all :
  map DrawingRequest.flip (dispatched 450 layered_canvas ALL) = [2; 4; 1; 3; 5; 6].
Proof. reflexivity. Qed.

Example flush_below_lightmap :
  map DrawingRequest.flip (dispatched 450 layered_canvas BELOW_LIGHTMAP) = [2; 4; 1; 3].
Proof. reflexivity. Qed.

Example flush_above_lightmap :
  map DrawingRequest.flip (dispatched 450 layered_canvas ABOVE_LIGHTMAP) = [6].
Proof. reflexivity. Qed.

Example pixel_query_left_of_screen :
  get_pixel 600 0 F32.zero (empty_canvas plain_context) ∅ (vec (-1) 0) (Some 3%nat)
  = Ok (empty_canvas plain_context, {[3%nat := opaque_black]}).
Proof. reflexivity. Qed.

Lemma render_layer_order_stable_witness :
  nth_error (dispatched 450 layered_canvas ALL) 1 = Some (marker 3 4)
  /\ nth_error (dispatched 450 layered_canvas ALL) 2 = Some (marker 10 1)
  /\ DrawingRequest.layer (marker 3 4) < DrawingRequest.layer (marker 10 1)
  /\ (1 < 2)%nat
  /\ List.filter (on_layer 10) (dispatched 450 layered_canvas ALL)
     = [marker 10 1; marker 10 3].
Proof.
  destruct (render_layer_order_stable 450 layered_canvas ALL) as [Horder [Hstable _]].
  split; [reflexivity|]. split; [reflexivity|]. split; [reflexivity|]. split.
  - apply (Horder 1%nat 2%nat (marker 3 4) (marker 10 1)); reflexivity.
  - rewrite Hstable. reflexivity.
Defined.

Lemma render_band_filter_dispatch_witness :
  In (marker 3 2) (Canvas.m_requests layered_canvas)
  /\ in_band 450 BELOW_LIGHTMAP (marker 3 2)
  /\ In (dispatch (marker 3 2)) (snd (render 450 layered_canvas BELOW_LIGHTMAP))
  /\ Painter.variant_of (dispatch (marker 3 2)) = FILLRECT.
Proof.
  destruct (render_band_filter_dispatch 450 layered_canvas BELOW_LIGHTMAP)
    as [_ [Hband Hcall]].
  assert (Hin : In (marker 3 2) (Canvas.m_requests layered_canvas)).
  { right. left. reflexivity. }
  assert (Hlayer : in_band 450 BELOW_LIGHTMAP (marker 3 2)).
  { reflexivity. }
  split; [exact Hin|]. split; [exact Hlayer|]. split.
  - apply (Hband (marker 3 2) Hin). exact Hlayer.
  - apply (Hcall (dispatch (marker 3 2))).
    apply (Hband (marker 3 2) Hin). exact Hlayer.
Defined.

Lemma lightmap_layer_skipped_by_both_bands_witness :
  In (marker 450 5) (Canvas.m_requests layered_canvas)
  /\ DrawingRequest.layer (marker 450 5) = 450
  /\ ~ In (dispatch (marker 450 5))
         (snd (render 450 layered_canvas BELOW_LIGHTMAP)
          ++ snd (render 450 (fst (render 450 layered_canvas BELOW_LIGHTMAP))
                    ABOVE_LIGHTMAP)).
Proof.
  split; [do 4 right; left; reflexivity|]. split; [reflexivity|].
  apply (lightmap_layer_skipped_by_both_bands 450 layered_canvas). reflexivity.
Defined.


Lemma get_pixel_layer_is_fixed_witness :
  get_pixel 600 0 F32.zero (empty_canvas plain_context) ∅ (vec 5 0) (Some 3%nat)
  = Ok (push_back (allocate (empty_canvas plain_context))
          (DrawingRequest.make GETPIXEL 600 0 F32.zero
             (GetPixel (GetPixelRequest.make (vec 5 0) 3))),
        ∅)
  /\ (push_back (allocate (empty_canvas plain_context))
        (DrawingRequest.make GETPIXEL 600 0 F32.zero
           (GetPixel (GetPixelRequest.make (vec 5 0) 3)))
      = empty_canvas plain_context
      \/ exists request : DrawingRequest,
           push_back (allocate (empty_canvas plain_context))
             (DrawingRequest.make GETPIXEL 600 0 F32.zero
                (GetPixel (GetPixelRequest.make (vec 5 0) 3)))
           = push_back (allocate (empty_canvas plain_context)) request
           /\ DrawingRequest.type request = GETPIXEL
           /\ DrawingRequest.layer request = 600).
Proof.
  split; [reflexivity|].
  apply (get_pixel_layer_is_fixed 600 0 F32.zero (empty_canvas plain_context) ∅
           (vec 5 0) (Some 3%nat) _ ∅).
  reflexivity.
Defined.

Lemma draw_surface_clip_rejection_witness :
  fully_outside (surface_box (vec 1000 0) tile)
    (DrawingContext.get_cliprect (Canvas.m_context (empty_canvas plain_context))) = true
  /\ draw_surface (empty_canvas plain_context) (Some tile) (vec 1000 0) F32.zero white
       BlendDefault 5
     = Ok (empty_canvas plain_context)
  /\ draw_surface_at (empty_canvas plain_context) (Some tile) (vec 1000 0) 5
     = Ok (empty_canvas plain_context).
Proof.
  split; [reflexivity|].
  apply (draw_surface_clip_rejection (empty_canvas plain_context) tile (vec 1000 0)
           F32.zero white BlendDefault 5).
  reflexivity.
Defined.

Lemma render_two_run_witness :
  Canvas.m_requests (empty_canvas plain_context)
  = Canvas.m_requests (empty_canvas scrolled_context)
  /\ submissions (Canvas.m_context (empty_canvas plain_context))
       (frame_events plain_context)
     = submissions (Canvas.m_context (empty_canvas scrolled_context))
         (frame_events scrolled_context)
  /\ match run 600 0 F32.zero F32.zero BlendDefault (frame_events plain_context)
             (empty_canvas plain_context) ∅,
           run 600 0 F32.zero F32.zero BlendDefault (frame_events scrolled_context)
             (empty_canvas scrolled_context) ∅ with
     | Ok (c1', _), Ok (c2', _) =>
         forall (context1 context2 : DrawingContext) (filter : Filter),
           snd (render 450 (set_context c1' context1) filter)
           = snd (render 450 (set_context c2' context2) filter)
     | AssertionFailure, AssertionFailure => True
     | _, _ => False
     end.
Proof.
  split; [reflexivity|]. split; [reflexivity|].
  apply (render_two_run 450 600 0 F32.zero F32.zero BlendDefault
           (frame_events plain_context) (frame_events scrolled_context)
           (empty_canvas plain_context) (empty_canvas scrolled_context) ∅ ∅);
    reflexivity.
Defined.

(** ** Where the code departs from a statement *)

(** C3: a batch of one source rectangle and no destination rectangle, with
    a surface, passes: the call returns with the request enqueued. *)
Lemma draw_surface_batch_mismatch_accepted :
  ~ batch_mismatch_rejected F32.zero BlendDefault (empty_canvas plain_context)
      (Some tile) [unit_rect] [] white 5.
Proof.
  unfold batch_mismatch_rejected. intros Hclaim.
  assert (Hlen : length [unit_rect] <> length (@nil Rectf)) by (simpl; lia).
  specialize (Hclaim Hlen). discriminate Hclaim.
Qed.

(** C4: a tile whose device-space box lies left of the clip rectangle is
    enqueued by [draw_surface], which compares the position as passed; and
    a destination rectangle right of the clip rectangle is enqueued by
    [draw_surface_part], which makes no comparison. *)
Lemma clip_rejection_not_on_device_box :
  ~ device_clip_rejection (empty_canvas scrolled_context) tile (vec 10 10) F32.zero
      white BlendDefault 5
  /\ ~ device_clip_rejection_part F32.zero (empty_canvas plain_context) tile
         unit_rect far_rect 5 plain_style.
Proof.
  split.
  - unfold device_clip_rejection. intros Hclaim.
    specialize (Hclaim eq_refl). vm_compute in Hclaim. discriminate Hclaim.
  - unfold device_clip_rejection_part. intros Hclaim.
    specialize (Hclaim eq_refl). vm_compute in Hclaim. discriminate Hclaim.
Qed.

(** C5: under a transform of alpha one half, the gradient and the texture
    request hold the caller's alpha 1, not one half. *)
Lemma gradient_and_texture_alpha_not_folded :
  (exists request : DrawingRequest,
      draw_gradient (empty_canvas plain_context) white white 5 VERTICAL unit_rect
        BlendDefault
      = push_back (allocate (empty_canvas plain_context)) request
      /\ ~ alpha_folded (empty_canvas plain_context) [white; white] request)
  /\ (exists request : DrawingRequest,
         draw_surface (empty_canvas plain_context) (Some tile) (vec 0 0) F32.zero white
           BlendDefault 5
         = Ok (push_back (allocate (empty_canvas plain_context)) request)
         /\ ~ alpha_folded (empty_canvas plain_context) [white] request).
Proof.
  split; eexists; (split; [reflexivity|]);
    unfold alpha_folded; intros Hclaim; vm_compute in Hclaim; discriminate Hclaim.
Qed.


(** C6: a destination rectangle from 4/3 to 11/3, drawn without scrolling
    and with the viewport at the origin, has its second corner stored at
    4/3 + (11/3 - 4/3), which in binary32 is not 11/3. *)
Lemma second_corner_not_translated :
  ~ second_corner_translated F32.zero (empty_canvas plain_context) tile unit_rect
      thirds_rect 5 plain_style.
Proof.
  unfold second_corner_translated. intros Hclaim.
  specialize (Hclaim _ eq_refl). vm_compute in Hclaim. discriminate Hclaim.
Qed.

Lemma positions_baked_at_submission_witness :
  (clipped (DrawingContext.get_cliprect (Canvas.m_context (empty_canvas scrolled_context)))
     (vec 10 10) tile = false
   /\ exists request,
        draw_surface (empty_canvas scrolled_context) (Some tile) (vec 10 10) F32.zero
          white BlendDefault 5
        = Ok (push_back (allocate (empty_canvas scrolled_context)) request)
        /\ positions request = [device_pos scrolled_context (vec 10 10)]
        /\ destinations request
           = [surface_box (device_pos scrolled_context (vec 10 10)) tile])
  /\ (offscreen (empty_canvas scrolled_context) (device_pos scrolled_context (vec 120 5))
      = false
      /\ exists request,
           get_pixel 600 0 F32.zero (empty_canvas scrolled_context) ∅ (vec 120 5)
             (Some 3%nat)
           = Ok (push_back (allocate (empty_canvas scrolled_context)) request, ∅)
           /\ positions request = [device_pos scrolled_context (vec 120 5)]).
Proof.
  destruct (positions_baked_at_submission 450 600 0 F32.zero F32.zero BlendDefault
              (empty_canvas scrolled_context))
    as [_ [Hsurface [_ [_ [_ [_ [_ [_ [_ [_ [_ [_ [_ [Hpixel _]]]]]]]]]]]]]].
  split.
  - split; [reflexivity|].
    apply (Hsurface tile (vec 10 10) F32.zero white BlendDefault 5). reflexivity.
  - split; [reflexivity|].
    apply (Hpixel ∅ (vec 120 5) 3%nat). reflexivity.
Defined.

(** * The further properties at sample inputs *)

Example flush_of_the_bands :
  map DrawingRequest.flip
    (map Painter.request_of
       (snd (render 450 layered_canvas BELOW_LIGHTMAP)
        ++ map dispatch
             (List.filter (on_layer 450)
                (stable_sort layer_less (Canvas.m_requests layered_canvas)))
        ++ snd (render 450 layered_canvas ABOVE_LIGHTMAP)))
  = [2; 4; 1; 3; 5; 6].
Proof. reflexivity. Qed.

(** With [LAYER_GETPIXEL] put on [LAYER_LIGHTMAP], the two band flushes
    make no call for a pixel query that was enqueued. *)
Example pixel_query_on_the_lightmap_layer :
  match get_pixel 450 0 F32.zero (empty_canvas plain_context) ∅ (vec 5 0) (Some 3%nat) with
  | Ok (c', _) =>
      length (Canvas.m_requests c') = 1%nat
      /\ snd (render 450 c' BELOW_LIGHTMAP)
         ++ snd (render 450 (fst (render 450 c' BELOW_LIGHTMAP)) ABOVE_LIGHTMAP)
         = []
  | AssertionFailure => False
  end.
Proof. split; reflexivity. Qed.

Lemma render_of_ordered_queue_witness :
  StronglySorted layer_le (Canvas.m_requests ordered_canvas)
  /\ fst (render 450 ordered_canvas BELOW_LIGHTMAP) = ordered_canvas
  /\ dispatched 450 ordered_canvas BELOW_LIGHTMAP
     = List.filter (in_bandb 450 BELOW_LIGHTMAP) (Canvas.m_requests ordered_canvas)
  /\ dispatched 450 ordered_canvas ALL = Canvas.m_requests ordered_canvas.
Proof.
  assert (Hsorted : StronglySorted layer_le (Canvas.m_requests ordered_canvas)).
  { repeat constructor; unfold layer_le; simpl; lia. }
  split; [exact Hsorted|].
  apply (render_of_ordered_queue 450 ordered_canvas BELOW_LIGHTMAP Hsorted).
Defined.

Lemma render_same_per_layer_witness :
  (forall layer : Z,
      List.filter (on_layer layer) (Canvas.m_requests layered_canvas)
      = List.filter (on_layer layer) (Canvas.m_requests relayered_canvas))
  /\ snd (render 450 layered_canvas BELOW_LIGHTMAP)
     = snd (render 450 relayered_canvas BELOW_LIGHTMAP).
Proof.
  assert (Hsame : forall layer : Z,
             List.filter (on_layer layer) (Canvas.m_requests layered_canvas)
             = List.filter (on_layer layer) (Canvas.m_requests relayered_canvas)).
  { intros layer. unfold layered_canvas, relayered_canvas, on_layer.
    cbn [Canvas.m_requests List.filter marker DrawingRequest.layer].
    destruct (Z.eqb_spec 10 layer), (Z.eqb_spec 3 layer), (Z.eqb_spec 450 layer),
             (Z.eqb_spec 500 layer); try reflexivity; lia. }
  split; [exact Hsame|].
  apply (render_same_per_layer 450 layered_canvas relayered_canvas BELOW_LIGHTMAP Hsame).
Defined.

Lemma run_appends_what_it_allocates_witness :
  exists (c' : Canvas) (store' : ColorStore),
    run 600 0 F32.zero F32.zero BlendDefault query_events layered_canvas ∅
    = Ok (c', store')
    /\ exists added : list DrawingRequest,
         Canvas.m_requests c' = Canvas.m_requests layered_canvas ++ added
         /\ Canvas.m_obst c' = (Canvas.m_obst layered_canvas + length added)%nat
         /\ (length added <= length (submitted query_events))%nat.
Proof.
  eexists. eexists. split; [reflexivity|].
  eapply (run_appends_what_it_allocates 600 0 F32.zero F32.zero BlendDefault
            query_events layered_canvas ∅ _ _).
  reflexivity.
Defined.

Lemma run_keeps_requests_well_tagged_witness :
  Forall DrawingRequest.well_tagged (Canvas.m_requests layered_canvas)
  /\ exists (c' : Canvas) (store' : ColorStore),
       run 600 0 F32.zero F32.zero BlendDefault query_events layered_canvas ∅
       = Ok (c', store')
       /\ Forall DrawingRequest.well_tagged (Canvas.m_requests c')
       /\ (forall filter : Filter, Forall cast_is_exact (snd (render 450 c' filter))).
Proof.
  assert (Htagged : Forall DrawingRequest.well_tagged (Canvas.m_requests layered_canvas)).
  { repeat constructor. }
  split; [exact Htagged|].
  eexists. eexists. split; [reflexivity|].
  eapply (run_keeps_requests_well_tagged 450 600 0 F32.zero F32.zero BlendDefault
            query_events layered_canvas ∅ _ _ Htagged).
  reflexivity.
Defined.

Lemma run_fails_on_null_only_witness :
  existsb null_argument (submitted faulty_events) = true
  /\ run 600 0 F32.zero F32.zero BlendDefault faulty_events (empty_canvas plain_context) ∅
     = AssertionFailure
  /\ existsb null_argument (submitted query_events) = false
  /\ run 600 0 F32.zero F32.zero BlendDefault query_events (empty_canvas plain_context) ∅
     <> AssertionFailure.
Proof.
  split; [reflexivity|]. split; [|split; [reflexivity|]].
  - apply (run_fails_on_null_only 600 0 F32.zero F32.zero BlendDefault faulty_events
             (empty_canvas plain_context) ∅).
    reflexivity.
  - intros Hfail.
    apply (run_fails_on_null_only 600 0 F32.zero F32.zero BlendDefault query_events
             (empty_canvas plain_context) ∅) in Hfail.
    discriminate Hfail.
Defined.

Lemma run_writes_black_to_output_cells_only_witness :
  exists (c' : Canvas) (store' : ColorStore),
    run 600 0 F32.zero F32.zero BlendDefault query_events (empty_canvas plain_context)
      {[4%nat := white]}
    = Ok (c', store')
    /\ store' !! 3%nat = Some opaque_black
    /\ store' !! 4%nat = Some white
    /\ (store' !! 4%nat = ({[4%nat := white]} : ColorStore) !! 4%nat
        \/ (store' !! 4%nat = Some opaque_black
            /\ In (Some 4%nat) (map output_cell (submitted query_events)))).
Proof.
  eexists. eexists. split; [reflexivity|]. split; [reflexivity|]. split; [reflexivity|].
  eapply (run_writes_black_to_output_cells_only 600 0 F32.zero F32.zero BlendDefault
            query_events (empty_canvas plain_context) {[4%nat := white]} _ _).
  reflexivity.
Defined.

Lemma draw_calls_on_different_layers_commute_witness :
  call_layer 600 (DrawLine (vec 0 0) (vec 10 10) white 50)
  <> call_layer 600 (GetPixelAt (vec 5 0) (Some 3%nat))
  /\ match run 600 0 F32.zero F32.zero BlendDefault
             [Submit (DrawLine (vec 0 0) (vec 10 10) white 50);
              Submit (GetPixelAt (vec 5 0) (Some 3%nat))]
             layered_canvas ∅,
           run 600 0 F32.zero F32.zero BlendDefault
             [Submit (GetPixelAt (vec 5 0) (Some 3%nat));
              Submit (DrawLine (vec 0 0) (vec 10 10) white 50)]
             layered_canvas ∅ with
     | Ok (c1, _), Ok (c2, _) =>
         forall filter : Filter, snd (render 450 c1 filter) = snd (render 450 c2 filter)
     | AssertionFailure, AssertionFailure => True
     | _, _ => False
     end.
Proof.
  assert (Hlayers : call_layer 600 (DrawLine (vec 0 0) (vec 10 10) white 50)
                    <> call_layer 600 (GetPixelAt (vec 5 0) (Some 3%nat))).
  { cbn [call_layer]. lia. }
  split; [exact Hlayers|].
  apply (draw_calls_on_different_layers_commute 450 600 0 F32.zero F32.zero BlendDefault
           layered_canvas ∅ _ _ Hlayers).
Defined.

Lemma texture_flip_is_exclusive_or_witness :
  Transform.flip (transform (empty_canvas still_context)) = Surface.get_flip flipped_tile
  /\ Z.lxor (Transform.flip (transform (empty_canvas still_context)))
       (Surface.get_flip flipped_tile) = 0.
Proof.
  split; [reflexivity|].
  destruct (texture_flip_is_exclusive_or F32.zero BlendDefault
              (empty_canvas still_context) flipped_tile) as [Hzero _].
  apply Hzero. reflexivity.
Defined.

Lemma apply_translate_unscrolled_witness :
  Transform.translation (transform (empty_canvas still_context))
  = Vector.make F32.zero F32.zero
  /\ Rect.left (DrawingContext.get_viewport (Canvas.m_context (empty_canvas still_context)))
     = 0
  /\ Rect.top (DrawingContext.get_viewport (Canvas.m_context (empty_canvas still_context)))
     = 0
  /\ Vector.x (vec 5 (-7)) <> negative_zero
  /\ Vector.y (vec 5 (-7)) <> negative_zero
  /\ apply_translate (empty_canvas still_context) (vec 5 (-7)) = vec 5 (-7).
Proof.
  assert (Hx : Vector.x (vec 5 (-7)) <> negative_zero) by discriminate.
  assert (Hy : Vector.y (vec 5 (-7)) <> negative_zero) by discriminate.
  split; [reflexivity|]. split; [reflexivity|]. split; [reflexivity|].
  split; [exact Hx|]. split; [exact Hy|].
  destruct (apply_translate_unscrolled (empty_canvas still_context) (vec 5 (-7))
              eq_refl eq_refl eq_refl) as [Hsame _].
  apply Hsame; assumption.
Defined.

Lemma pixel_query_reaches_the_painter_witness :
  offscreen (empty_canvas plain_context)
    (apply_translate (empty_canvas plain_context) (vec 5 0)) = false
  /\ exists request : DrawingRequest,
       get_pixel 600 0 F32.zero (empty_canvas plain_context) ∅ (vec 5 0) (Some 3%nat)
       = Ok (push_back (allocate (empty_canvas plain_context)) request, ∅)
       /\ In (Painter.get_pixel request)
            (snd (render 450 (push_back (allocate (empty_canvas plain_context)) request)
                    ALL))
       /\ (let below :=
             render 450 (push_back (allocate (empty_canvas plain_context)) request)
               BELOW_LIGHTMAP in
           let above := render 450 (fst below) ABOVE_LIGHTMAP in
           In (Painter.get_pixel request) (snd below ++ snd above) <-> 600 <> 450).
Proof.
  split; [reflexivity|].
  apply (pixel_query_reaches_the_painter 450 600 0 F32.zero (empty_canvas plain_context)
           ∅ (vec 5 0) 3%nat).
  reflexivity.
Defined.

Lemma draw_surface_drops_or_enqueues_witness :
  fully_outside (surface_box (vec 10 10) tile)
    (DrawingContext.get_cliprect (Canvas.m_context (empty_canvas plain_context))) = false
  /\ exists (request : DrawingRequest) (d : TextureRequest.t),
       draw_surface (empty_canvas plain_context) (Some tile) (vec 10 10) F32.zero white
         BlendDefault 5
       = Ok (push_back (allocate (empty_canvas plain_context)) request)
       /\ DrawingRequest.data request = Texture d
       /\ DrawingRequest.layer request = 5
       /\ TextureRequest.srcrects d = [Rectf.of_rect (Surface.get_region tile)]
       /\ length (TextureRequest.dstrects d) = 1%nat
       /\ TextureRequest.texture d = Surface.get_texture tile
       /\ TextureRequest.displacement_texture d = Surface.get_displacement_texture tile.
Proof.
  split; [reflexivity|].
  destruct (draw_surface_drops_or_enqueues (empty_canvas plain_context) tile (vec 10 10)
              F32.zero white BlendDefault 5) as [_ Henqueues].
  apply Henqueues. reflexivity.
Defined.
